(** * Sticky notes board: a model of [src/app/page.tsx]

    The component [StickyNotesApp] keeps four pieces of React state
    ([notes], [maxZIndex], [dragState], [showTutorial]) and one record in
    [localStorage].  Every handler of the component runs inside the closure
    of one render: it reads the state of that render and queues updates,
    which React applies, in order, before the next render; the effects whose
    dependencies changed run after that render.  The model follows that
    shape: a handler is a function from the rendered state to a list of
    queued updates, and [dispatch] applies the queue and runs the save
    effect.

    Numbers.  A JavaScript [number] is an IEEE double.  The state machine
    below reads [zIndex], [width] and [height] as integers in [Z] and the
    coordinates as exact rationals in [Q].  On integers of magnitude up to
    2^53 the double sum [maxZIndex + 1] is the exact sum; beyond, and for the
    fractional sums of [addNote], the double is the exact value rounded.
    Module [Double] evaluates the same expressions in binary64, and a
    statement that the rounding would falsify carries the bound 2^53 as a
    hypothesis or is stated with a bound that rounding keeps. *)

From Stdlib Require Import List Sorted String Bool ZArith QArith Qround Lia Lqa Floats.
Import ListNotations.

Local Open Scope Z_scope.

(** ** Types *)

(** [type NoteColor = 'yellow' | 'blue' | 'green' | 'pink' | 'orange' | 'purple'] *)
Inductive NoteColor : Type :=
| yellow | blue | green | pink | orange | purple.

(** [interface Note] *)
Module Note.
Record t : Type := mk {
  id : string;
  x : Q;
  y : Q;
  content : string;
  color : NoteColor;
  zIndex : Z;
  width : Z;
  height : Z
}.

(** [{ ...n, content }] *)
Definition with_content (n : t) (content' : string) : t :=
  mk (id n) (x n) (y n) content' (color n) (zIndex n) (width n) (height n).

(** [{ ...n, color }] *)
Definition with_color (n : t) (color' : NoteColor) : t :=
  mk (id n) (x n) (y n) (content n) color' (zIndex n) (width n) (height n).

(** [{ ...n, zIndex: newZ }] *)
Definition with_zIndex (n : t) (newZ : Z) : t :=
  mk (id n) (x n) (y n) (content n) (color n) newZ (width n) (height n).

(** [{ ...n, x: ..., y: ... }] *)
Definition with_xy (n : t) (x' y' : Q) : t :=
  mk (id n) x' y' (content n) (color n) (zIndex n) (width n) (height n).
End Note.

(** [interface DragState]; [noteId: string | null]. *)
Module DragState.
Record t : Type := mk {
  isDragging : bool;
  noteId : option string;
  startX : Q;
  startY : Q;
  initialNoteX : Q;
  initialNoteY : Q
}.
End DragState.

(** ** Constants *)

(** [COLOR_KEYS = Object.keys(COLORS)]: the keys of [COLORS] in the order
    they are written. *)
Definition COLOR_KEYS : list NoteColor :=
  [yellow; blue; green; pink; orange; purple].

Definition DEFAULT_WIDTH : Z := 220.
Definition DEFAULT_HEIGHT : Z := 220.

(** ** The record under [STORAGE_KEY]

    [localStorage] holds a string under the one key the component uses.  The
    component only ever looks at that string through its truthiness and
    through [JSON.parse], so a string is represented by what [JSON.parse]
    makes of it: text that [JSON.parse] rejects, or the text of a JSON value.
    Arrays are taken to hold note records, the element type the component
    declares for its state ([useState<Note[]>]). *)
#[local] Unset Elimination Schemes.
Inductive json : Type :=
| JNull
| JBool (b : bool)
| JNumber (q : Q)
| JString (s : string)
| JObject (members : list (string * json))
| JArray (elements : list Note.t).
#[local] Set Elimination Schemes.

Inductive item : Type :=
| Unparsable (text : string)
| Json (v : json).

(** [if (saved)]: of all strings only the empty one is falsy, and the empty
    string is not JSON text. *)
Definition truthy (saved : item) : bool :=
  match saved with
  | Unparsable text => negb (String.eqb text EmptyString)
  | Json _ => true
  end.

(** [JSON.parse(saved)]; [None] stands for the [SyntaxError] it throws. *)
Definition JSON_parse (saved : item) : option json :=
  match saved with
  | Unparsable _ => None
  | Json v => Some v
  end.

(** [JSON.stringify(notes)] *)
Definition JSON_stringify (notes : list Note.t) : item :=
  Json (JArray notes).

(** [Array.isArray(parsed)], returning the array. *)
Definition Array_isArray (parsed : json) : option (list Note.t) :=
  match parsed with
  | JArray elements => Some elements
  | _ => None
  end.

(** ** State *)

Record App : Type := mkApp {
  notes : list Note.t;
  maxZIndex : Z;
  dragState : DragState.t;
  showTutorial : bool;
  (** the value [localStorage] holds under [STORAGE_KEY], [None] when the
      key is absent *)
  localStorage : option item
}.

(** What a handler does while it runs: calls of the state setters, which
    React queues, and the removal of the stored record. *)
Inductive update : Type :=
| setNotes (f : list Note.t -> list Note.t)
| setMaxZIndex (z : Z)
| setDragState (f : DragState.t -> DragState.t)
| setShowTutorial (b : bool)
| localStorage_removeItem.

Definition apply_update (st : App) (u : update) : App :=
  match u with
  | setNotes f =>
      mkApp (f (notes st)) (maxZIndex st) (dragState st) (showTutorial st) (localStorage st)
  | setMaxZIndex z =>
      mkApp (notes st) z (dragState st) (showTutorial st) (localStorage st)
  | setDragState f =>
      mkApp (notes st) (maxZIndex st) (f (dragState st)) (showTutorial st) (localStorage st)
  | setShowTutorial b =>
      mkApp (notes st) (maxZIndex st) (dragState st) b (localStorage st)
  | localStorage_removeItem =>
      mkApp (notes st) (maxZIndex st) (dragState st) (showTutorial st) None
  end.

(** The save effect (lines 83-87):
    [if (notes.length > 0 || !showTutorial) localStorage.setItem(STORAGE_KEY, JSON.stringify(notes))]. *)
Definition save_effect (st : App) : App :=
  if (0 <? Z.of_nat (List.length (notes st))) || negb (showTutorial st)
  then mkApp (notes st) (maxZIndex st) (dragState st) (showTutorial st)
             (Some (JSON_stringify (notes st)))
  else st.

(** Every call of [setNotes] in the component passes a freshly built array
    ([map], [filter], a spread, a literal, the parsed payload), so the
    dependency [notes] of the save effect changes whenever [setNotes] was
    called. *)
Definition sets_notes (u : update) : bool :=
  match u with
  | setNotes _ => true
  | _ => false
  end.

(** One render cycle: the queued updates are applied in order, and the save
    effect runs when one of its dependencies [[notes, showTutorial]]
    changed. *)
Definition dispatch (st : App) (queue : list update) : App :=
  let st' := fold_left apply_update queue st in
  if existsb sets_notes queue || negb (Bool.eqb (showTutorial st) (showTutorial st'))
  then save_effect st'
  else st'.

(** ** Effects on mount *)

(** [useState] initial values (lines 45-55). *)
Definition initial_dragState : DragState.t :=
  DragState.mk false None 0%Q 0%Q 0%Q 0%Q.

Definition initial (stored : option item) : App :=
  mkApp [] 1 initial_dragState true stored.

(** [note.zIndex || 1]: a number is falsy when it is zero. *)
Definition zIndex_or_1 (note : Note.t) : Z :=
  if Note.zIndex note =? 0 then 1 else Note.zIndex note.

(** [parsed.reduce((max, note) => Math.max(max, note.zIndex || 1), 1)] *)
Definition reduce_maxZ (parsed : list Note.t) : Z :=
  fold_left (fun max note => Z.max max (zIndex_or_1 note)) parsed 1.

(** The load effect (lines 64-80).  A [SyntaxError] of [JSON.parse] is
    caught and logged, and nothing is queued.  [maxZ + 1] is the exact sum,
    which is the double sum while every loaded [zIndex] is an integer below
    2^53 ([Double.loaded_maxZIndex]). *)
Definition load_effect (st : App) : list update :=
  match localStorage st with
  | None => []
  | Some saved =>
      if truthy saved then
        match JSON_parse saved with
        | None => []
        | Some parsed =>
            match Array_isArray parsed with
            | Some arr =>
                let maxZ := reduce_maxZ arr in
                [setNotes (fun _ => arr); setMaxZIndex (maxZ + 1)]
                  ++ (if (0 <? Z.of_nat (List.length arr)) then [setShowTutorial false] else [])
            | None => []
            end
        end
      else []
  end.

(** Mounting the component over a given content of the store: both effects
    run after the first render (the save effect on the initial state), then
    the queued updates of the load effect are rendered. *)
Definition mount (stored : option item) : App :=
  let st0 := initial stored in
  let queue := load_effect st0 in
  dispatch (save_effect st0) queue.

(** ** Event handlers *)

(** What [addNote] draws: [Math.random()] three times and
    [crypto.randomUUID()] once. *)
Record draws : Type := mkDraws {
  randomX : Q;
  randomY : Q;
  randomColorIndex : Q;
  randomUUID : string
}.

(** [Math.floor(r * COLOR_KEYS.length)], of the exact product.  The source
    floors the rounded product ([Double.color_product]), which for the
    doubles just below a multiple of one sixth is already the next integer:
    the colour picked there is the next key.  Nothing below depends on which
    of the six keys is picked. *)
Definition color_index (r : Q) : Z :=
  Qfloor (r * inject_Z (Z.of_nat (List.length COLOR_KEYS))).

(** [COLOR_KEYS[i]]; for [Math.random()] in [0, 1) the index is in range and
    the default is never returned. *)
Definition COLOR_KEYS_at (i : Z) : NoteColor :=
  nth (Z.to_nat i) COLOR_KEYS yellow.

(** [addNote] (lines 92-114).  [newZIndex] is the exact sum, which is the
    double sum while [maxZIndex] is an integer below 2^53
    ([Double.newZIndex]); [startX] and [startY] are the exact values, which
    the source rounds ([Double.startX], [Double.startY]). *)
Definition addNote (st : App) (d : draws) : list update :=
  let newZIndex := maxZIndex st + 1 in
  let startX := (50 + randomX d * 100)%Q in
  let startY := (80 + randomY d * 100)%Q in
  let randomColor := COLOR_KEYS_at (color_index (randomColorIndex d)) in
  let newNote :=
    Note.mk (randomUUID d) startX startY EmptyString randomColor newZIndex
            DEFAULT_WIDTH DEFAULT_HEIGHT in
  [setMaxZIndex newZIndex;
   setNotes (fun prev => prev ++ [newNote]);
   setShowTutorial false].

(** [updateNoteContent] (lines 116-118) *)
Definition updateNoteContent (id : string) (content : string) : list update :=
  [setNotes (fun prev =>
     map (fun n => if String.eqb (Note.id n) id then Note.with_content n content else n) prev)].

(** [updateNoteColor] (lines 120-122) *)
Definition updateNoteColor (id : string) (color : NoteColor) : list update :=
  [setNotes (fun prev =>
     map (fun n => if String.eqb (Note.id n) id then Note.with_color n color else n) prev)].

(** [deleteNote] (lines 124-126) *)
Definition deleteNote (id : string) : list update :=
  [setNotes (fun prev => filter (fun n => negb (String.eqb (Note.id n) id)) prev)].

(** [notes.find(n => n.id === id)] *)
Definition find_note (l : list Note.t) (id : string) : option Note.t :=
  find (fun n => String.eqb (Note.id n) id) l.

(** [bringToFront] (lines 128-135).  [newZ] is the exact sum, which is the
    double sum while [maxZIndex] is an integer below 2^53
    ([Double.newZIndex]). *)
Definition bringToFront (st : App) (id : string) : list update :=
  let targetNote := find_note (notes st) id in
  if match targetNote with
     | Some t => Note.zIndex t =? maxZIndex st
     | None => false
     end
  then []
  else
    let newZ := maxZIndex st + 1 in
    [setMaxZIndex newZ;
     setNotes (fun prev =>
       map (fun n => if String.eqb (Note.id n) id then Note.with_zIndex n newZ else n) prev)].

(** [clearAll] (lines 137-142); [confirmed] is the answer of
    [window.confirm]. *)
Definition clearAll (confirmed : bool) : list update :=
  if confirmed then [setNotes (fun _ => []); localStorage_removeItem] else [].

(** ** Drag and drop *)

(** A mouse event, or a touch event with its first touch and the others. *)
Inductive pointer : Type :=
| MouseEvent (clientX clientY : Q)
| TouchEvent (first : Q * Q) (others : list (Q * Q)).

(** [if ('touches' in e) { e.touches[0].clientX ... } else { e.clientX ... }] *)
Definition clientX (e : pointer) : Q :=
  match e with
  | TouchEvent first _ => fst first
  | MouseEvent cx _ => cx
  end.

Definition clientY (e : pointer) : Q :=
  match e with
  | TouchEvent first _ => snd first
  | MouseEvent _ cy => cy
  end.

(** [handleDragStart] (lines 146-174) *)
Definition handleDragStart (st : App) (e : pointer) (id : string) : list update :=
  match find_note (notes st) id with
  | None => []
  | Some note =>
      bringToFront st id
        ++ [setDragState (fun _ =>
              DragState.mk true (Some id) (clientX e) (clientY e) (Note.x note) (Note.y note))]
  end.

(** [!dragState.noteId] is false for a non-empty string only. *)
Definition noteId_truthy (noteId : option string) : bool :=
  match noteId with
  | Some s => negb (String.eqb s EmptyString)
  | None => false
  end.

(** [n.id === dragState.noteId] *)
Definition is_noteId (n : Note.t) (noteId : option string) : bool :=
  match noteId with
  | Some s => String.eqb (Note.id n) s
  | None => false
  end.

(** [handleMouseMove] (lines 177-202) *)
Definition handleMouseMove (st : App) (e : pointer) : list update :=
  let ds := dragState st in
  if negb (DragState.isDragging ds) || negb (noteId_truthy (DragState.noteId ds)) then []
  else
    let deltaX := (clientX e - DragState.startX ds)%Q in
    let deltaY := (clientY e - DragState.startY ds)%Q in
    [setNotes (fun prevNotes =>
       map (fun n =>
              if is_noteId n (DragState.noteId ds)
              then Note.with_xy n (DragState.initialNoteX ds + deltaX)%Q
                                  (DragState.initialNoteY ds + deltaY)%Q
              else n) prevNotes)].

(** [handleMouseUp] (lines 204-208) *)
Definition handleMouseUp (st : App) : list update :=
  if DragState.isDragging (dragState st)
  then [setDragState (fun prev =>
          DragState.mk false None (DragState.startX prev) (DragState.startY prev)
                       (DragState.initialNoteX prev) (DragState.initialNoteY prev))]
  else [].

(** ** Events

    What the rendered page wires to the handlers (lines 211-230 and the JSX).
    The window listeners exist only while [dragState.isDragging]; a press on
    a note's handle runs [handleDragStart] and then, the event bubbling to
    the note's own [onMouseDown]/[onTouchStart], [bringToFront], both in the
    closure of the same render. *)
Inductive event : Type :=
| ClickNewNote (d : draws)
| ClickClearBoard (confirmed : bool)
| PressNote (id : string)
| PressHandle (e : pointer) (id : string)
| ClickSwatch (id : string) (c : NoteColor)
| ClickDelete (id : string)
| ChangeText (id : string) (content : string)
| WindowMove (e : pointer)       (* mousemove, touchmove *)
| WindowUp                       (* mouseup, touchend *)
| WindowCancel.                  (* touchcancel, pointercancel: no listener *)

Definition handlers (st : App) (ev : event) : list update :=
  match ev with
  | ClickNewNote d => addNote st d
  | ClickClearBoard confirmed => clearAll confirmed
  | PressNote id => bringToFront st id
  | PressHandle e id => handleDragStart st e id ++ bringToFront st id
  | ClickSwatch id c => updateNoteColor id c
  | ClickDelete id => deleteNote id
  | ChangeText id content => updateNoteContent id content
  | WindowMove e =>
      if DragState.isDragging (dragState st) then handleMouseMove st e else []
  | WindowUp =>
      if DragState.isDragging (dragState st) then handleMouseUp st else []
  | WindowCancel => []
  end.

Definition step (st : App) (ev : event) : App :=
  dispatch st (handlers st ev).

Definition run (st : App) (evs : list event) : App :=
  fold_left step evs st.

(** The states the page can be in: mounted over any content of the store,
    then any events. *)
Inductive reachable : App -> Prop :=
| reachable_mount (stored : option item) : reachable (mount stored)
| reachable_step (st : App) (ev : event) : reachable st -> reachable (step st ev).

(** ** The numeric expressions in binary64

    The expressions of the source whose value in doubles can differ from
    their exact value, as the source evaluates them. *)
Module Double.

(** [const newZIndex = maxZIndex + 1] (line 93) and
    [const newZ = maxZIndex + 1] (line 132) *)
Definition newZIndex (maxZIndex : float) : float := (maxZIndex + 1)%float.

(** [note.zIndex || 1]: zero and NaN are falsy. *)
Definition zIndex_or_1 (z : float) : float :=
  if (z =? 0)%float || negb (z =? z)%float then 1%float else z.

(** [Math.max(max, v)], for numbers that are not NaN. *)
Definition Math_max (a b : float) : float := if (a <? b)%float then b else a.

(** [parsed.reduce((max, note) => Math.max(max, note.zIndex || 1), 1)],
    over the [zIndex] fields of the parsed notes. *)
Definition reduce_maxZ (zIndexes : list float) : float :=
  fold_left (fun max z => Math_max max (zIndex_or_1 z)) zIndexes 1%float.

(** [setMaxZIndex(maxZ + 1)] (line 73) *)
Definition loaded_maxZIndex (zIndexes : list float) : float :=
  (reduce_maxZ zIndexes + 1)%float.

(** [const startX = 50 + Math.random() * 100] (line 97) *)
Definition startX (random : float) : float := (50 + random * 100)%float.

(** [const startY = 80 + Math.random() * 100] (line 98) *)
Definition startY (random : float) : float := (80 + random * 100)%float.

(** [Math.random() * COLOR_KEYS.length], the argument of [Math.floor]
    (line 99) *)
Definition color_product (random : float) : float := (random * 6)%float.

End Double.

(** ** Sample boards

    A board with one freshly created note, and the same board with a drag
    of that note under way. *)
Definition draws_a : draws := mkDraws (1 # 2) (1 # 4) 0 "a".
Definition draws_b : draws := mkDraws (1 # 10) (9 # 10) (1 # 2) "b".

Definition board_a : App := run (mount None) [ClickNewNote draws_a].
Definition board_ab : App := run (mount None) [ClickNewNote draws_a; ClickNewNote draws_b].
Definition dragging_a : App := step board_a (PressHandle (MouseEvent 10 10) "a").

(** A board mounted over a stored note whose identifier is the empty
    string, which [crypto.randomUUID()] never returns. *)
Definition board_empty_id : App :=
  mount (Some (Json (JArray [Note.mk "" 10 20 "memo" blue 1 220 220]))).

(** ** Vocabulary of the statements *)

(** The four pieces of React state are the same in both states. *)
Definition same_board (st st' : App) : Prop :=
  notes st' = notes st /\ maxZIndex st' = maxZIndex st /\
  dragState st' = dragState st /\ showTutorial st' = showTutorial st.

(** The session that [handleDragStart] records. *)
Definition session (e : pointer) (id : string) (note : Note.t) : DragState.t :=
  DragState.mk true (Some id) (clientX e) (clientY e) (Note.x note) (Note.y note).

(** The collection with [newZ] assigned to the notes called [id]. *)
Definition raised (id : string) (newZ : Z) (l : list Note.t) : list Note.t :=
  map (fun n => if String.eqb (Note.id n) id then Note.with_zIndex n newZ else n) l.

(** The events of the window listeners. *)
Definition window_event (ev : event) : bool :=
  match ev with
  | WindowMove _ | WindowUp | WindowCancel => true
  | _ => false
  end.

(** A state in which a pointer move cannot reach any note: no session, or a
    session whose target is no note of the collection. *)
Definition inert (st : App) : Prop :=
  DragState.isDragging (dragState st) = false \/
  Forall (fun n => is_noteId n (DragState.noteId (dragState st)) = false) (notes st).

(** The collection after a move to [e] in the session [ds]: the target at
    [initialNote + (client - start)], the other notes as they were. *)
Definition moved (ds : DragState.t) (e : pointer) (l : list Note.t) : list Note.t :=
  map (fun n =>
         if is_noteId n (DragState.noteId ds)
         then Note.with_xy n
                (DragState.initialNoteX ds + (clientX e - DragState.startX ds))%Q
                (DragState.initialNoteY ds + (clientY e - DragState.startY ds))%Q
         else n) l.

(** The guard of [handleMouseMove] passes. *)
Definition session_active (ds : DragState.t) : bool :=
  DragState.isDragging ds && noteId_truthy (DragState.noteId ds).

(** [maxZIndex] is at least every note's [zIndex]. *)
Definition stack_inv (st : App) : Prop :=
  Forall (fun n => Note.zIndex n <= maxZIndex st) (notes st).

(** The presses that call [bringToFront(id)]. *)
Definition brings_to_front (ev : event) (id : string) : bool :=
  match ev with
  | PressNote i | PressHandle _ i => String.eqb i id
  | _ => false
  end.

(** What is fixed at creation. *)
Definition ident (n : Note.t) : string * Z * Z :=
  (Note.id n, Note.width n, Note.height n).



(** The note [addNote] builds when [maxZIndex + 1] is [z]. *)
Definition newNote (z : Z) (d : draws) : Note.t :=
  Note.mk (randomUUID d) (50 + randomX d * 100)%Q (80 + randomY d * 100)%Q EmptyString
          (COLOR_KEYS_at (color_index (randomColorIndex d))) z DEFAULT_WIDTH DEFAULT_HEIGHT.




(** A board with notes no longer shows the tutorial. *)
Definition tutorial_inv (st : App) : Prop :=
  notes st = [] \/ showTutorial st = false.

(** ** What the page renders

    The three conditions of the JSX that depend on the state. *)

(** [{notes.length > 0 && (<button onClick={clearAll}> ...)}] (line 248) *)
Definition clear_button_rendered (st : App) : bool :=
  0 <? Z.of_nat (List.length (notes st)).

(** [{notes.length === 0 && showTutorial && (...)}] (line 269) *)
Definition tutorial_rendered (st : App) : bool :=
  (Z.of_nat (List.length (notes st)) =? 0) && showTutorial st.

(** [const isDraggingThis = dragState.isDragging && dragState.noteId === note.id]
    (line 295) *)
Definition isDraggingThis (st : App) (note : Note.t) : bool :=
  DragState.isDragging (dragState st) && is_noteId note (DragState.noteId (dragState st)).

(** ** Further invariants *)

(** Once the tutorial is off, the store holds the collection as it is. *)
Definition store_inv (st : App) : Prop :=
  showTutorial st = false -> localStorage st = Some (JSON_stringify (notes st)).

(** The notes whose [zIndex] is [maxZIndex] all carry one identifier. *)
Definition front_inv (st : App) : Prop :=
  forall n m, In n (notes st) -> In m (notes st) ->
              Note.zIndex n = maxZIndex st -> Note.zIndex m = maxZIndex st ->
              Note.id n = Note.id m.

(** [localStorage.removeItem] is among the queued calls. *)
Definition removes_item (u : update) : bool :=
  match u with
  | localStorage_removeItem => true
  | _ => false
  end.

(** The whole gesture on a note's handle: press at [e0], moves, the last of
    them at [e], release. *)
Definition drag_gesture (e0 : pointer) (id : string) (earlier : list pointer) (e : pointer)
  : list event :=
  PressHandle e0 id :: map WindowMove (earlier ++ [e]) ++ [WindowUp].

(** ** Proof tools *)

Create Rewrite HintDb ui.

(** Reads the four state fields of a dispatched queue off the queue. *)
Ltac ui := autorewrite with ui; cbn [fold_left apply_update notes maxZIndex dragState
                                      showTutorial app].

(** * Properties *)

(** ** The render cycle keeps what the queue computed *)

Lemma save_effect_notes st : notes (save_effect st) = notes st.
Proof. unfold save_effect. destruct (_ || _); reflexivity. Qed.

Lemma save_effect_maxZIndex st : maxZIndex (save_effect st) = maxZIndex st.
Proof. unfold save_effect. destruct (_ || _); reflexivity. Qed.

Lemma save_effect_dragState st : dragState (save_effect st) = dragState st.
Proof. unfold save_effect. destruct (_ || _); reflexivity. Qed.

Lemma save_effect_showTutorial st : showTutorial (save_effect st) = showTutorial st.
Proof. unfold save_effect. destruct (_ || _); reflexivity. Qed.

Lemma dispatch_notes st q : notes (dispatch st q) = notes (fold_left apply_update q st).
Proof. unfold dispatch. destruct (_ || _); [apply save_effect_notes | reflexivity]. Qed.

Lemma dispatch_maxZIndex st q :
  maxZIndex (dispatch st q) = maxZIndex (fold_left apply_update q st).
Proof. unfold dispatch. destruct (_ || _); [apply save_effect_maxZIndex | reflexivity]. Qed.

Lemma dispatch_dragState st q :
  dragState (dispatch st q) = dragState (fold_left apply_update q st).
Proof. unfold dispatch. destruct (_ || _); [apply save_effect_dragState | reflexivity]. Qed.

Lemma dispatch_showTutorial st q :
  showTutorial (dispatch st q) = showTutorial (fold_left apply_update q st).
Proof. unfold dispatch. destruct (_ || _); [apply save_effect_showTutorial | reflexivity]. Qed.

Lemma dispatch_nil st : dispatch st [] = st.
Proof. unfold dispatch. simpl. rewrite Bool.eqb_reflx. reflexivity. Qed.

#[export] Hint Rewrite dispatch_notes dispatch_maxZIndex dispatch_dragState
  dispatch_showTutorial dispatch_nil : ui.

(** ** Notes addressed by identifier *)

Section ById.
Variable id : string.
Variable f : Note.t -> Note.t.

(** [prev.map((n) => (n.id === id ? f(n) : n))] *)
Local Abbreviation map_id l :=
  (map (fun n => if String.eqb (Note.id n) id then f n else n) l).

Lemma map_id_absent l : ~ In id (map Note.id l) -> map_id l = l.
Proof.
  induction l as [|n l IH]; simpl; intros H; [reflexivity|].
  destruct (String.eqb_spec (Note.id n) id) as [E|E].
  - exfalso. apply H. left. exact E.
  - f_equal. apply IH. intros HI. apply H. right. exact HI.
Qed.

Lemma filter_id_absent l :
  ~ In id (map Note.id l) ->
  filter (fun n => negb (String.eqb (Note.id n) id)) l = l.
Proof.
  induction l as [|n l IH]; simpl; intros H; [reflexivity|].
  destruct (String.eqb_spec (Note.id n) id) as [E|E]; simpl.
  - exfalso. apply H. left. exact E.
  - f_equal. apply IH. intros HI. apply H. right. exact HI.
Qed.

Lemma find_note_absent l : ~ In id (map Note.id l) -> find_note l id = None.
Proof.
  induction l as [|n l IH]; simpl; intros H; [reflexivity|].
  destruct (String.eqb_spec (Note.id n) id) as [E|E].
  - exfalso. apply H. left. exact E.
  - apply IH. intros HI. apply H. right. exact HI.
Qed.

Lemma find_note_present l : In id (map Note.id l) -> exists n, find_note l id = Some n.
Proof.
  induction l as [|n l IH]; simpl; intros H; [contradiction|].
  destruct (String.eqb_spec (Note.id n) id) as [E|E].
  - eexists. reflexivity.
  - destruct H as [H|H]; [contradiction|]. apply IH. exact H.
Qed.

Lemma find_note_some l n : find_note l id = Some n -> In n l /\ Note.id n = id.
Proof.
  unfold find_note. intros H. apply find_some in H. destruct H as [HI HE].
  split; [exact HI|]. apply String.eqb_eq. exact HE.
Qed.

(** When [f] keeps the identifier and does the same to a note it already
    rewrote, mapping twice is mapping once. *)
Lemma map_id_twice l :
  (forall n, Note.id (f n) = Note.id n) -> (forall n, f (f n) = f n) ->
  map_id (map_id l) = map_id l.
Proof.
  intros Hid Hff. rewrite map_map. apply map_ext. intros n.
  destruct (String.eqb_spec (Note.id n) id) as [E|E].
  - rewrite Hid. rewrite (proj2 (String.eqb_eq _ _) E). apply Hff.
  - rewrite (proj2 (String.eqb_neq _ _) E). reflexivity.
Qed.

Lemma map_id_ids l :
  (forall n, Note.id (f n) = Note.id n) -> map Note.id (map_id l) = map Note.id l.
Proof.
  intros Hid. rewrite map_map. apply map_ext. intros n.
  destruct (String.eqb (Note.id n) id); [apply Hid | reflexivity].
Qed.
End ById.

(** ** Operations on an identifier that no note has *)




(** ** [bringToFront] twice *)

Lemma find_note_map_zIndex l id z n :
  find_note l id = Some n ->
  find_note (map (fun m => if String.eqb (Note.id m) id then Note.with_zIndex m z else m) l) id
  = Some (Note.with_zIndex n z).
Proof.
  induction l as [|m l IH]; simpl; intros H; [discriminate|].
  destruct (String.eqb_spec (Note.id m) id) as [E|E].
  - simpl. rewrite (proj2 (String.eqb_eq _ _) E).
    injection H as H. subst m. reflexivity.
  - rewrite (proj2 (String.eqb_neq _ _) E). apply IH. exact H.
Qed.

(** Whatever [bringToFront] found, a second call in the next render finds
    the note at the front and queues nothing. *)
Lemma bringToFront_then_front st id :
  In id (map Note.id (notes st)) ->
  bringToFront (dispatch st (bringToFront st id)) id = [].
Proof.
  intros Hin. destruct (find_note_present id (notes st) Hin) as [n Hn].
  unfold bringToFront at 2. rewrite Hn.
  destruct (Z.eqb_spec (Note.zIndex n) (maxZIndex st)) as [E|E].
  - rewrite dispatch_nil. unfold bringToFront. rewrite Hn.
    rewrite (proj2 (Z.eqb_eq _ _) E). reflexivity.
  - unfold bringToFront. ui.
    rewrite (find_note_map_zIndex _ _ _ _ Hn). simpl.
    rewrite Z.eqb_refl. reflexivity.
Qed.

(** C7, as the code has it: for the identifier of a note of the collection,
    a second [bringToFront(id)] right after the first changes nothing, neither
    [maxZIndex] nor any note (nor anything else of the state). *)
Theorem bringToFront_idempotent (st : App) (id : string) :
  In id (map Note.id (notes st)) ->
  let st1 := dispatch st (bringToFront st id) in
  dispatch st1 (bringToFront st1 id) = st1.
Proof.
  intros Hin st1. unfold st1.
  rewrite (bringToFront_then_front st id Hin). apply dispatch_nil.
Qed.

Lemma bringToFront_idempotent_witness :
  dispatch (dispatch board_ab (bringToFront board_ab "a"))
           (bringToFront (dispatch board_ab (bringToFront board_ab "a")) "a")
  = dispatch board_ab (bringToFront board_ab "a").
Proof.
  apply (bringToFront_idempotent board_ab "a").
  simpl. left. reflexivity.
Defined.

(** C7 as stated (for every identifier) fails when no note has the
    identifier: each call then raises [maxZIndex], so the second call changes
    it from 3 to 4. *)
Lemma bringToFront_twice_counterexample :
  maxZIndex (dispatch board_a (bringToFront board_a "ghost")) = 3 /\
  maxZIndex (dispatch (dispatch board_a (bringToFront board_a "ghost"))
                      (bringToFront (dispatch board_a (bringToFront board_a "ghost")) "ghost"))
  = 4 /\
  dispatch (dispatch board_a (bringToFront board_a "ghost"))
           (bringToFront (dispatch board_a (bringToFront board_a "ghost")) "ghost")
  <> dispatch board_a (bringToFront board_a "ghost").
Proof.
  split; [reflexivity|]. split; [reflexivity|].
  intros H. apply (f_equal maxZIndex) in H. discriminate H.
Qed.

(** ** Starting a drag *)




(** ** The end of a drag *)

Lemma map_noteId_absent (nid : option string) (f : Note.t -> Note.t) l :
  Forall (fun n => is_noteId n nid = false) l ->
  map (fun n => if is_noteId n nid then f n else n) l = l.
Proof.
  induction 1 as [|n l Hn _ IH]; simpl; [reflexivity|].
  rewrite Hn, IH. reflexivity.
Qed.

Lemma inert_step st ev :
  inert st -> window_event ev = true ->
  notes (step st ev) = notes st /\ inert (step st ev).
Proof.
  intros Hin Hev. unfold step.
  destruct ev; try discriminate Hev; cbn [handlers].
  - (* a move *)
    destruct (DragState.isDragging (dragState st)) eqn:Hd.
    + destruct Hin as [Hin|Hin]; [congruence|].
      unfold handleMouseMove. rewrite Hd.
      destruct (negb true || _).
      * rewrite dispatch_nil. split; [reflexivity|]. right. exact Hin.
      * unfold inert. ui. rewrite (map_noteId_absent _ _ _ Hin).
        split; [reflexivity|]. right. exact Hin.
    + rewrite dispatch_nil. split; [reflexivity|]. left. exact Hd.
  - (* an up *)
    destruct (DragState.isDragging (dragState st)) eqn:Hd.
    + unfold handleMouseUp. rewrite Hd. unfold inert. ui.
      split; [reflexivity|]. left. reflexivity.
    + rewrite dispatch_nil. split; [reflexivity|]. left. exact Hd.
  - (* a cancel: no listener *)
    rewrite dispatch_nil. split; [reflexivity|exact Hin].
Qed.

Lemma inert_run evs : forall st,
  inert st -> forallb window_event evs = true -> notes (run st evs) = notes st.
Proof.
  induction evs as [|ev evs IH]; intros st Hin Hevs; [reflexivity|].
  simpl in Hevs. apply andb_prop in Hevs. destruct Hevs as [Hev Hevs].
  destruct (inert_step st ev Hin Hev) as [Hn Hin'].
  change (run st (ev :: evs)) with (run (step st ev) evs).
  rewrite (IH (step st ev) Hin' Hevs). exact Hn.
Qed.

Lemma filter_not_noteId id l :
  Forall (fun n => is_noteId n (Some id) = false)
         (filter (fun n => negb (String.eqb (Note.id n) id)) l).
Proof.
  apply Forall_forall. intros n Hn. apply filter_In in Hn. destruct Hn as [_ Hn].
  simpl. destruct (String.eqb (Note.id n) id); [discriminate Hn | reflexivity].
Qed.

(** C4, as the code has it.  While a drag is active, a pointer-up or
    touch-end resets the session ([isDragging = false], [noteId = null])
    without touching the notes, and no later event of the window listeners
    changes any note.  [deleteNote] of the dragged note does not reset the
    session, which stays exactly as it was; since the note is gone, no later
    event of the window listeners changes any note either. *)
Theorem drag_end (st : App) :
  DragState.isDragging (dragState st) = true ->
  (DragState.isDragging (dragState (step st WindowUp)) = false /\
   DragState.noteId (dragState (step st WindowUp)) = None /\
   notes (step st WindowUp) = notes st /\
   forall evs, forallb window_event evs = true ->
               notes (run (step st WindowUp) evs) = notes (step st WindowUp)) /\
  (forall id, DragState.noteId (dragState st) = Some id ->
     dragState (step st (ClickDelete id)) = dragState st /\
     forall evs, forallb window_event evs = true ->
                 notes (run (step st (ClickDelete id)) evs) = notes (step st (ClickDelete id))).
Proof.
  intros Hd. split.
  - assert (Hup : handlers st WindowUp
                  = [setDragState (fun prev =>
                       DragState.mk false None (DragState.startX prev) (DragState.startY prev)
                         (DragState.initialNoteX prev) (DragState.initialNoteY prev))]).
    { cbn [handlers]. unfold handleMouseUp. rewrite Hd. reflexivity. }
    unfold step. rewrite Hup. ui. repeat split.
    intros evs Hevs.
    rewrite inert_run; [ui; reflexivity | left; ui; reflexivity | exact Hevs].
  - intros id Hid. unfold step. cbn [handlers]. unfold deleteNote. ui.
    split; [reflexivity|].
    intros evs Hevs.
    rewrite inert_run; [ui; reflexivity | | exact Hevs].
    right. ui. rewrite Hid. apply filter_not_noteId.
Qed.

Lemma drag_end_witness :
  DragState.isDragging (dragState (step dragging_a WindowUp)) = false /\
  notes (run (step dragging_a WindowUp) [WindowMove (MouseEvent 50 60); WindowUp])
    = notes dragging_a /\
  dragState (step dragging_a (ClickDelete "a")) = dragState dragging_a /\
  notes (run (step dragging_a (ClickDelete "a")) [WindowMove (MouseEvent 50 60)]) = [].
Proof.
  destruct (drag_end dragging_a) as [(Hoff & _ & Hsame & Hup) Hdel].
  - reflexivity.
  - destruct (Hdel "a"%string) as [Hds Hlater]; [reflexivity|].
    split; [exact Hoff|]. split.
    + rewrite Hup; [exact Hsame | reflexivity].
    + split; [exact Hds|]. rewrite Hlater; reflexivity.
Defined.

(** C4 as stated fails for the loss of the dragged note: after [deleteNote]
    of the target the session is still active on the deleted identifier.  It
    also fails for a cancelled pointer: no listener is registered for it, the
    state stays as it was, and the next move still moves the note (from x =
    100 to x = 100 + (50 - 10)). *)
Lemma drag_not_ended_counterexample :
  DragState.isDragging (dragState dragging_a) = true /\
  DragState.noteId (dragState dragging_a) = Some "a"%string /\
  notes (step dragging_a (ClickDelete "a")) = [] /\
  DragState.isDragging (dragState (step dragging_a (ClickDelete "a"))) = true /\
  DragState.isDragging (dragState (step dragging_a (ClickDelete "a"))) <> false /\
  DragState.noteId (dragState (step dragging_a (ClickDelete "a"))) = Some "a"%string /\
  step dragging_a WindowCancel = dragging_a /\
  map Note.x (notes (step dragging_a WindowCancel)) = [(200 # 2)%Q] /\
  map Note.x (notes (run dragging_a [WindowCancel; WindowMove (MouseEvent 50 60)]))
    = [((200 # 2) + (50 - 10))%Q].
Proof. repeat split; try reflexivity. discriminate. Qed.

(** ** Pointer moves during a drag *)

Lemma is_noteId_with_xy n a b nid : is_noteId (Note.with_xy n a b) nid = is_noteId n nid.
Proof. destruct nid; reflexivity. Qed.

(** A later move overwrites an earlier one. *)
Lemma moved_moved ds e1 e2 l : moved ds e2 (moved ds e1 l) = moved ds e2 l.
Proof.
  unfold moved. rewrite map_map. apply map_ext. intros n.
  destruct (is_noteId n (DragState.noteId ds)) eqn:E.
  - rewrite is_noteId_with_xy, E. reflexivity.
  - rewrite E. reflexivity.
Qed.

Lemma move_step st e :
  session_active (dragState st) = true ->
  notes (step st (WindowMove e)) = moved (dragState st) e (notes st) /\
  dragState (step st (WindowMove e)) = dragState st.
Proof.
  unfold session_active. intros Hact. apply andb_prop in Hact. destruct Hact as [Hd Hid].
  unfold step. cbn [handlers]. rewrite Hd. unfold handleMouseMove. rewrite Hd, Hid.
  cbn [negb orb]. ui. split; reflexivity.
Qed.

Lemma moves_run ds e l es : forall st,
  dragState st = ds -> session_active ds = true ->
  (forall e', moved ds e' (notes st) = moved ds e' l) ->
  notes (run st (map WindowMove (es ++ [e]))) = moved ds e l /\
  dragState (run st (map WindowMove (es ++ [e]))) = ds.
Proof.
  induction es as [|e1 es IH]; intros st Hds Hact Hl.
  - simpl. subst ds. destruct (move_step st e Hact) as [Hn Hd].
    rewrite Hn, Hd. split; [apply Hl | reflexivity].
  - change (run st (map WindowMove ((e1 :: es) ++ [e])))
      with (run (step st (WindowMove e1)) (map WindowMove (es ++ [e]))).
    assert (Hact' := Hact). rewrite <- Hds in Hact'.
    destruct (move_step st e1 Hact') as [Hn Hd].
    apply IH; [congruence | exact Hact |].
    intros e'. rewrite Hn, Hds, moved_moved. apply Hl.
Qed.

(** C5, as the code has it: in a session that passes the guard of
    [handleMouseMove] (dragging, on a non-empty note identifier) with anchor
    pointer position [(startX, startY)] and anchor note position
    [(initialNoteX, initialNoteY)], after any pointer moves the last of which
    is at [e], every note with the target identifier is at
    [initialNote + (client e - start)] and is otherwise as before, every other
    note is exactly as before, and the session itself is as before.  The moves
    before the last one do not show in the result. *)
Theorem drag_moves_absolute (st : App) (earlier : list pointer) (e : pointer) :
  session_active (dragState st) = true ->
  notes (run st (map WindowMove (earlier ++ [e])))
  = map (fun n =>
           if is_noteId n (DragState.noteId (dragState st))
           then Note.with_xy n
                  (DragState.initialNoteX (dragState st)
                   + (clientX e - DragState.startX (dragState st)))%Q
                  (DragState.initialNoteY (dragState st)
                   + (clientY e - DragState.startY (dragState st)))%Q
           else n) (notes st)
  /\ dragState (run st (map WindowMove (earlier ++ [e]))) = dragState st.
Proof.
  intros Hact.
  apply (moves_run (dragState st) e (notes st) earlier st eq_refl Hact).
  intros e'. reflexivity.
Qed.

Lemma drag_moves_absolute_witness :
  map (fun n => (Note.id n, Note.x n, Note.y n))
      (notes (run (step board_ab (PressHandle (MouseEvent 10 10) "a"))
                  (map WindowMove [MouseEvent 500 7; TouchEvent (3%Q, 4%Q) []; MouseEvent 50 60])))
  = [("a"%string, ((200 # 2) + (50 - 10))%Q, ((420 # 4) + (60 - 10))%Q);
     ("b"%string, (50 + (1 # 10) * 100)%Q, (80 + (9 # 10) * 100)%Q)].
Proof.
  destruct (drag_moves_absolute (step board_ab (PressHandle (MouseEvent 10 10) "a"))
              [MouseEvent 500 7; TouchEvent (3%Q, 4%Q) []] (MouseEvent 50 60) eq_refl)
    as [Hnotes _].
  cbn [app] in Hnotes. rewrite Hnotes. reflexivity.
Defined.

(** C5 as stated (for every drag session) fails on a note whose identifier
    is the empty string.  A press on the handle of the stored note [""]
    starts a session ([isDragging] is true, [noteId] is [""], the note is
    drawn as dragged), but [!dragState.noteId] holds of the empty string and
    [handleMouseMove] returns at once: after a move from (10, 10) to (50, 60)
    the note is still at x = 10, y = 20, not at 10 + (50 - 10), 20 + (60 - 10). *)
Lemma empty_id_session_counterexample :
  reachable (step board_empty_id (PressHandle (MouseEvent 10 10) "")) /\
  dragState (step board_empty_id (PressHandle (MouseEvent 10 10) ""))
  = DragState.mk true (Some EmptyString) 10 10 10 20 /\
  Forall (fun n => isDraggingThis (step board_empty_id (PressHandle (MouseEvent 10 10) "")) n
                   = true)
         (notes (step board_empty_id (PressHandle (MouseEvent 10 10) ""))) /\
  map (fun n => (Note.x n, Note.y n))
      (notes (run board_empty_id [PressHandle (MouseEvent 10 10) "";
                                  WindowMove (MouseEvent 50 60)]))
  = [(10%Q, 20%Q)] /\
  ~ (10 == 10 + (50 - 10))%Q /\ ~ (20 == 20 + (60 - 10))%Q.
Proof.
  split; [exact (reachable_step _ _ (reachable_mount _))|].
  split; [reflexivity|]. split; [repeat constructor|]. split; [reflexivity|].
  split; intros H; vm_compute in H; discriminate H.
Qed.

(** ** The stacking counter *)

Lemma reduce_maxZ_from (l : list Note.t) : forall acc,
  acc <= fold_left (fun max note => Z.max max (zIndex_or_1 note)) l acc /\
  Forall (fun n => Note.zIndex n
                   <= fold_left (fun max note => Z.max max (zIndex_or_1 note)) l acc) l.
Proof.
  induction l as [|n l IH]; intros acc; simpl.
  - split; [lia | constructor].
  - destruct (IH (Z.max acc (zIndex_or_1 n))) as [Hacc Hall].
    split; [lia|]. constructor; [|exact Hall].
    assert (Note.zIndex n <= zIndex_or_1 n).
    { unfold zIndex_or_1. destruct (Z.eqb_spec (Note.zIndex n) 0); lia. }
    lia.
Qed.

Lemma stack_inv_mount stored : stack_inv (mount stored).
Proof.
  unfold stack_inv, mount, load_effect. cbn [localStorage initial].
  destruct stored as [saved|]; [|ui; constructor].
  destruct (truthy saved); [|ui; constructor].
  destruct (JSON_parse saved) as [parsed|]; [|ui; constructor].
  destruct (Array_isArray parsed) as [arr|]; [|ui; constructor].
  assert (Hall : Forall (fun n => Note.zIndex n <= reduce_maxZ arr + 1) arr).
  { eapply Forall_impl; [|apply (reduce_maxZ_from arr 1)].
    unfold reduce_maxZ. intros n Hn. simpl in Hn. lia. }
  destruct (0 <? Z.of_nat (List.length arr)); ui; exact Hall.
Qed.

Lemma Forall_zIndex_map (f : Note.t -> Note.t) (m m' : Z) l :
  (forall n, Note.zIndex n <= m -> Note.zIndex (f n) <= m') ->
  Forall (fun n => Note.zIndex n <= m) l ->
  Forall (fun n => Note.zIndex n <= m') (map f l).
Proof.
  intros Hf Hl. apply Forall_map. eapply Forall_impl; [|exact Hl].
  intros n Hn. apply Hf. exact Hn.
Qed.

Lemma raised_le id m l :
  Forall (fun n => Note.zIndex n <= m) l ->
  Forall (fun n => Note.zIndex n <= m + 1) (raised id (m + 1) l).
Proof.
  apply Forall_zIndex_map. intros n Hn.
  destruct (String.eqb (Note.id n) id); simpl; lia.
Qed.

Lemma raised_again_le id m l :
  Forall (fun n => Note.zIndex n <= m + 1) l ->
  Forall (fun n => Note.zIndex n <= m + 1) (raised id (m + 1) l).
Proof.
  apply Forall_zIndex_map. intros n Hn.
  destruct (String.eqb (Note.id n) id); simpl; lia.
Qed.

Lemma stack_inv_step st ev : stack_inv st -> stack_inv (step st ev).
Proof.
  unfold stack_inv, step. intros Hinv.
  destruct ev; cbn [handlers].
  - (* addNote *)
    unfold addNote. ui. apply Forall_app. split.
    + eapply Forall_impl; [|exact Hinv]. simpl. intros; lia.
    + constructor; [simpl; lia | constructor].
  - (* clearAll *)
    unfold clearAll. destruct confirmed; ui; [constructor | exact Hinv].
  - (* a press on the note *)
    unfold bringToFront. destruct (match find_note _ _ with Some _ => _ | None => _ end); ui.
    + exact Hinv.
    + apply raised_le. exact Hinv.
  - (* a press on the handle *)
    unfold handleDragStart, bringToFront.
    destruct (find_note (notes st) id) as [note|].
    + destruct (Note.zIndex note =? maxZIndex st); ui; [exact Hinv|].
      apply raised_again_le, raised_le. exact Hinv.
    + ui. apply raised_le. exact Hinv.
  - (* a colour *)
    unfold updateNoteColor. ui. apply (Forall_zIndex_map _ (maxZIndex st)); [|exact Hinv].
    intros n Hn. destruct (String.eqb (Note.id n) id); exact Hn.
  - (* a deletion *)
    unfold deleteNote. ui. apply Forall_forall. intros n Hn.
    apply filter_In in Hn. destruct Hn as [Hn _].
    revert n Hn. apply Forall_forall. exact Hinv.
  - (* an edit *)
    unfold updateNoteContent. ui. apply (Forall_zIndex_map _ (maxZIndex st)); [|exact Hinv].
    intros n Hn. destruct (String.eqb (Note.id n) id); exact Hn.
  - (* a move *)
    destruct (DragState.isDragging (dragState st)); [|ui; exact Hinv].
    unfold handleMouseMove. destruct (_ || _); ui; [exact Hinv|].
    apply (Forall_zIndex_map _ (maxZIndex st)); [|exact Hinv].
    intros n Hn. destruct (is_noteId n _); exact Hn.
  - (* an up *)
    destruct (DragState.isDragging (dragState st)) eqn:Hd; [|ui; exact Hinv].
    unfold handleMouseUp. rewrite Hd. ui. exact Hinv.
  - ui. exact Hinv.
Qed.

Lemma reachable_stack_inv st : reachable st -> stack_inv st.
Proof.
  induction 1 as [stored | st ev _ IH].
  - apply stack_inv_mount.
  - apply stack_inv_step. exact IH.
Qed.

Lemma raised_In id z l n' :
  In n' (raised id z l) -> Note.id n' = id -> Note.zIndex n' = z.
Proof.
  unfold raised. intros Hin Hid. apply in_map_iff in Hin. destruct Hin as (n & Hn & _).
  destruct (String.eqb_spec (Note.id n) id) as [E|E]; subst n'.
  - reflexivity.
  - contradiction.
Qed.

Lemma addNote_step st d :
  notes (step st (ClickNewNote d))
  = notes st ++ [Note.mk (randomUUID d) (50 + randomX d * 100)%Q (80 + randomY d * 100)%Q
                   EmptyString (COLOR_KEYS_at (color_index (randomColorIndex d)))
                   (maxZIndex st + 1) DEFAULT_WIDTH DEFAULT_HEIGHT] /\
  maxZIndex (step st (ClickNewNote d)) = maxZIndex st + 1.
Proof. unfold step. cbn [handlers]. unfold addNote. ui. split; reflexivity. Qed.

Lemma press_note_raises st id note :
  find_note (notes st) id = Some note -> Note.zIndex note <> maxZIndex st ->
  notes (step st (PressNote id)) = raised id (maxZIndex st + 1) (notes st) /\
  maxZIndex (step st (PressNote id)) = maxZIndex st + 1.
Proof.
  intros Hfind Hz. unfold step. cbn [handlers]. unfold bringToFront. rewrite Hfind.
  rewrite (proj2 (Z.eqb_neq _ _) Hz). ui. split; reflexivity.
Qed.

Lemma press_handle_raises st e id note :
  find_note (notes st) id = Some note -> Note.zIndex note <> maxZIndex st ->
  notes (step st (PressHandle e id)) = raised id (maxZIndex st + 1) (notes st) /\
  maxZIndex (step st (PressHandle e id)) = maxZIndex st + 1.
Proof.
  intros Hfind Hz. unfold step. cbn [handlers]. unfold handleDragStart, bringToFront.
  rewrite Hfind. rewrite (proj2 (Z.eqb_neq _ _) Hz). ui. unfold raised.
  rewrite (map_id_twice id (fun n => Note.with_zIndex n (maxZIndex st + 1)) (notes st)
             (fun _ => eq_refl) (fun _ => eq_refl)).
  split; reflexivity.
Qed.

Lemma maxZIndex_step st ev :
  maxZIndex (step st ev) = maxZIndex st \/ maxZIndex (step st ev) = maxZIndex st + 1.
Proof.
  unfold step. destruct ev; cbn [handlers].
  - right. unfold addNote. ui. reflexivity.
  - left. unfold clearAll. destruct confirmed; ui; reflexivity.
  - unfold bringToFront.
    destruct (match find_note _ _ with Some _ => _ | None => _ end); ui;
      [left | right]; reflexivity.
  - unfold handleDragStart, bringToFront.
    destruct (find_note (notes st) id) as [note|];
      [destruct (Note.zIndex note =? maxZIndex st)|]; ui;
      [left | right | right]; reflexivity.
  - left. unfold updateNoteColor. ui. reflexivity.
  - left. unfold deleteNote. ui. reflexivity.
  - left. unfold updateNoteContent. ui. reflexivity.
  - left. destruct (DragState.isDragging (dragState st)); [|ui; reflexivity].
    unfold handleMouseMove. destruct (_ || _); ui; reflexivity.
  - left. destruct (DragState.isDragging (dragState st)) eqn:Hd; [|ui; reflexivity].
    unfold handleMouseUp. rewrite Hd. ui. reflexivity.
  - left. ui. reflexivity.
Qed.

Lemma maxZIndex_pos_mount stored : 1 <= maxZIndex (mount stored).
Proof.
  unfold mount, load_effect. cbn [localStorage initial].
  assert (Hinit : forall o, 1 <= maxZIndex (dispatch (save_effect (initial o)) [])).
  { intros o. rewrite dispatch_nil, save_effect_maxZIndex. simpl. lia. }
  destruct stored as [saved|]; [|apply Hinit].
  destruct (truthy saved); [|apply Hinit].
  destruct (JSON_parse saved) as [parsed|]; [|apply Hinit].
  destruct (Array_isArray parsed) as [arr|]; [|apply Hinit].
  assert (H := proj1 (reduce_maxZ_from arr 1)). fold (reduce_maxZ arr) in H.
  destruct (0 <? Z.of_nat (List.length arr)); ui; lia.
Qed.

Lemma reachable_maxZIndex_pos st : reachable st -> 1 <= maxZIndex st.
Proof.
  induction 1 as [stored | st ev _ IH].
  - apply maxZIndex_pos_mount.
  - destruct (maxZIndex_step st ev) as [H|H]; rewrite H; lia.
Qed.

(** C6, as the code has it: in every state the page can reach, [maxZIndex] is
    at least 1 and at least every note's [zIndex]; and while [maxZIndex] is
    below 2^53, where the sum [maxZIndex + 1] is exact, a new note gets a
    [zIndex] strictly above the current [maxZIndex], which becomes the new
    [maxZIndex], and when a press brings to the front a note that is not at
    [maxZIndex] already, the notes with its identifier get a [zIndex]
    strictly above the current [maxZIndex], which becomes the new
    [maxZIndex]. *)
Theorem stack_order_invariant (st : App) :
  reachable st ->
  stack_inv st /\
  1 <= maxZIndex st /\
  (maxZIndex st < 2 ^ 53 ->
   (forall d, exists n',
      notes (step st (ClickNewNote d)) = notes st ++ [n'] /\
      maxZIndex st < Note.zIndex n' /\
      Note.zIndex n' <= 2 ^ 53 /\
      maxZIndex (step st (ClickNewNote d)) = Note.zIndex n') /\
   (forall ev id note,
      brings_to_front ev id = true ->
      find_note (notes st) id = Some note ->
      Note.zIndex note <> maxZIndex st ->
      forall n', In n' (notes (step st ev)) -> Note.id n' = id ->
                 maxZIndex st < Note.zIndex n' /\
                 Note.zIndex n' <= 2 ^ 53 /\
                 maxZIndex (step st ev) = Note.zIndex n')).
Proof.
  intros Hreach. split; [apply reachable_stack_inv; exact Hreach|].
  split; [apply reachable_maxZIndex_pos; exact Hreach|].
  intros Hexact. split.
  - intros d. destruct (addNote_step st d) as [Hn Hm].
    eexists. split; [exact Hn|]. rewrite Hm. simpl. repeat split; lia.
  - intros ev id note Hev Hfind Hz n' Hin Hid.
    assert (Hst : notes (step st ev) = raised id (maxZIndex st + 1) (notes st) /\
                  maxZIndex (step st ev) = maxZIndex st + 1).
    { destruct ev; try discriminate Hev; simpl in Hev;
        apply String.eqb_eq in Hev; subst id0.
      - apply (press_note_raises st id note); assumption.
      - apply (press_handle_raises st e id note); assumption. }
    destruct Hst as [Hn Hm]. rewrite Hn in Hin. rewrite Hm.
    rewrite (raised_In id _ _ n' Hin Hid). repeat split; lia.
Qed.

Lemma reachable_board_ab : reachable board_ab.
Proof. exact (reachable_step _ _ (reachable_step _ _ (reachable_mount None))). Qed.

Lemma stack_order_invariant_witness :
  stack_inv board_ab /\
  Forall (fun n' => Note.id n' = "a"%string ->
                    maxZIndex board_ab < Note.zIndex n' /\
                    Note.zIndex n' <= 2 ^ 53 /\
                    maxZIndex (step board_ab (PressNote "a")) = Note.zIndex n')
         (notes (step board_ab (PressNote "a"))).
Proof.
  destruct (stack_order_invariant board_ab reachable_board_ab) as (Hinv & _ & Hexact).
  split; [exact Hinv|].
  destruct Hexact as [_ Hfront]; [reflexivity|].
  apply Forall_forall. intros n' Hin Hid.
  apply (Hfront (PressNote "a") "a"%string
           (Note.mk "a" (200 # 2) (420 # 4) "" yellow 2 220 220)).
  - reflexivity.
  - reflexivity.
  - simpl. discriminate.
  - exact Hin.
  - exact Hid.
Defined.

(** C6 as stated fails from 2^53 on.  Mounted over a stored note whose
    [zIndex] is 2^53, the source computes [maxZ + 1] in doubles and
    [maxZIndex] is again 2^53; there [maxZIndex + 1], the value that
    [addNote] and [bringToFront] assign, is 2^53 as well: not strictly
    greater than the current [maxZIndex]. *)
Lemma newZIndex_not_greater_counterexample :
  Double.loaded_maxZIndex [9007199254740992%float] = 9007199254740992%float /\
  Double.newZIndex 9007199254740992 = 9007199254740992%float /\
  (9007199254740992 <? Double.newZIndex 9007199254740992)%float = false.
Proof. repeat split; reflexivity. Qed.

(** ** Loading a payload that is no array *)

(** C8: when the stored text does not parse, or parses to a value that is no
    array, the component mounts with an empty collection and with the counter,
    the drag session and the tutorial flag it has when nothing is stored; the
    stored text is left as it is.  [mount] is a total function: the
    [SyntaxError] is caught inside the load effect. *)
Theorem malformed_payload_loads_empty (saved : item) :
  JSON_parse saved = None \/
  (exists v, JSON_parse saved = Some v /\ Array_isArray v = None) ->
  notes (mount (Some saved)) = [] /\
  maxZIndex (mount (Some saved)) = maxZIndex (mount None) /\
  dragState (mount (Some saved)) = dragState (mount None) /\
  showTutorial (mount (Some saved)) = showTutorial (mount None) /\
  localStorage (mount (Some saved)) = Some saved.
Proof.
  intros Hbad.
  assert (Hq : load_effect (initial (Some saved)) = []).
  { unfold load_effect. cbn [localStorage initial].
    destruct (truthy saved); [|reflexivity].
    destruct Hbad as [-> | (v & -> & ->)]; reflexivity. }
  unfold mount. rewrite Hq, dispatch_nil. repeat split; reflexivity.
Qed.

Lemma malformed_payload_loads_empty_witness :
  notes (mount (Some (Unparsable "{oops"))) = [] /\
  notes (mount (Some (Json (JObject [("notes"%string, JNull)])))) = [] /\
  localStorage (mount (Some (Json (JNumber 42)))) = Some (Json (JNumber 42)).
Proof.
  split; [|split].
  - apply (malformed_payload_loads_empty (Unparsable "{oops")). left. reflexivity.
  - apply (malformed_payload_loads_empty (Json (JObject [("notes"%string, JNull)]))).
    right. eexists. split; reflexivity.
  - apply (malformed_payload_loads_empty (Json (JNumber 42))).
    right. eexists. split; reflexivity.
Defined.

(** ** Identifier and size *)

Lemma map_ident_same (p : Note.t -> bool) (f : Note.t -> Note.t) l :
  (forall n, ident (f n) = ident n) ->
  map ident (map (fun n => if p n then f n else n) l) = map ident l.
Proof.
  intros Hf. rewrite map_map. apply map_ext. intros n.
  destruct (p n); [apply Hf | reflexivity].
Qed.

Lemma map_ident_filter id l :
  map ident (filter (fun n => negb (String.eqb (Note.id n) id)) l)
  = filter (fun k => negb (String.eqb (fst (fst k)) id)) (map ident l).
Proof.
  induction l as [|n l IH]; simpl; [reflexivity|].
  destruct (String.eqb (Note.id n) id); simpl; rewrite IH; reflexivity.
Qed.

(** C10: whatever the event, the identifiers, widths and heights of the
    collection, read in order, are what they were: creating a note appends
    one entry (the drawn identifier, 220 by 220), deleting removes the entries
    of the deleted identifier, a confirmed clear removes all, and every other
    event (edit, colour, bring to front, drag start, pointer move, pointer up)
    leaves the sequence as it is. *)
Theorem id_and_size_immutable (st : App) (ev : event) :
  map ident (notes (step st ev)) =
  match ev with
  | ClickNewNote d => map ident (notes st) ++ [(randomUUID d, 220, 220)]
  | ClickDelete id =>
      filter (fun k => negb (String.eqb (fst (fst k)) id)) (map ident (notes st))
  | ClickClearBoard true => []
  | _ => map ident (notes st)
  end.
Proof.
  unfold step. destruct ev; cbn [handlers].
  - unfold addNote. ui. rewrite map_app. reflexivity.
  - unfold clearAll. destruct confirmed; ui; reflexivity.
  - unfold bringToFront.
    destruct (match find_note _ _ with Some _ => _ | None => _ end); ui; [reflexivity|].
    apply map_ident_same. reflexivity.
  - unfold handleDragStart, bringToFront.
    destruct (find_note (notes st) id) as [note|];
      [destruct (Note.zIndex note =? maxZIndex st)|]; ui;
      rewrite ?map_ident_same; reflexivity.
  - unfold updateNoteColor. ui. apply map_ident_same. reflexivity.
  - unfold deleteNote. ui. apply map_ident_filter.
  - unfold updateNoteContent. ui. apply map_ident_same. reflexivity.
  - destruct (DragState.isDragging (dragState st)); [|ui; reflexivity].
    unfold handleMouseMove. destruct (_ || _); ui; [reflexivity|].
    apply map_ident_same. reflexivity.
  - destruct (DragState.isDragging (dragState st)) eqn:Hd; [|ui; reflexivity].
    unfold handleMouseUp. rewrite Hd. ui. reflexivity.
  - ui. reflexivity.
Qed.

(** ** Creating notes *)






(** Where the exact product and the double part ways: for the double just
    below one sixth the exact product is below 1, the double product is 1. *)
Remark color_product_rounds :
  (0x1.5555555555555p-3 <? 0x1.5555555555556p-3)%float = true /\
  Double.color_product 0x1.5555555555555p-3 = 1%float /\
  Double.color_product 0x1.fffffffffffffp-1 = 0x1.7ffffffffffffp2%float.
Proof. repeat split; reflexivity. Qed.










(** ** Clearing the board *)

Lemma tutorial_inv_mount stored : tutorial_inv (mount stored).
Proof.
  unfold tutorial_inv, mount, load_effect. cbn [localStorage initial].
  destruct stored as [saved|]; [|left; reflexivity].
  destruct (truthy saved); [|left; reflexivity].
  destruct (JSON_parse saved) as [parsed|]; [|left; reflexivity].
  destruct (Array_isArray parsed) as [[|n arr]|]; [left | right | left]; reflexivity.
Qed.

Lemma tutorial_inv_step st ev : tutorial_inv st -> tutorial_inv (step st ev).
Proof.
  unfold tutorial_inv, step. intros Hinv.
  destruct ev; cbn [handlers].
  - right. unfold addNote. ui. reflexivity.
  - unfold clearAll. destruct confirmed; ui; [left; reflexivity | exact Hinv].
  - unfold bringToFront.
    destruct (match find_note _ _ with Some _ => _ | None => _ end); ui; [exact Hinv|].
    destruct Hinv as [-> | Hinv]; [left; reflexivity | right; exact Hinv].
  - unfold handleDragStart, bringToFront.
    destruct (find_note (notes st) id) as [note|];
      [destruct (Note.zIndex note =? maxZIndex st)|]; ui; try exact Hinv;
      (destruct Hinv as [-> | Hinv]; [left; reflexivity | right; exact Hinv]).
  - unfold updateNoteColor. ui.
    destruct Hinv as [-> | Hinv]; [left; reflexivity | right; exact Hinv].
  - unfold deleteNote. ui.
    destruct Hinv as [-> | Hinv]; [left; reflexivity | right; exact Hinv].
  - unfold updateNoteContent. ui.
    destruct Hinv as [-> | Hinv]; [left; reflexivity | right; exact Hinv].
  - destruct (DragState.isDragging (dragState st)); [|ui; exact Hinv].
    unfold handleMouseMove. destruct (_ || _); ui; [exact Hinv|].
    destruct Hinv as [-> | Hinv]; [left; reflexivity | right; exact Hinv].
  - destruct (DragState.isDragging (dragState st)) eqn:Hd; [|ui; exact Hinv].
    unfold handleMouseUp. rewrite Hd. ui. exact Hinv.
  - ui. exact Hinv.
Qed.

Lemma reachable_tutorial_inv st : reachable st -> tutorial_inv st.
Proof.
  induction 1 as [stored | st ev _ IH].
  - apply tutorial_inv_mount.
  - apply tutorial_inv_step. exact IH.
Qed.

(** What the store holds after a confirmed [clearAll] when the tutorial is
    off: [removeItem] runs inside the handler, the queued [setNotes([])] is
    rendered, and the save effect, whose dependency [notes] changed and whose
    guard [!showTutorial] holds, writes [JSON.stringify([])]. *)
Lemma clearAll_store st :
  showTutorial st = false ->
  notes (step st (ClickClearBoard true)) = [] /\
  localStorage (step st (ClickClearBoard true)) = Some (JSON_stringify []).
Proof.
  intros Htut. unfold step. cbn [handlers clearAll]. unfold dispatch.
  cbn [fold_left apply_update existsb sets_notes orb showTutorial].
  unfold save_effect. cbn [notes showTutorial List.length Z.of_nat]. rewrite Htut.
  split; reflexivity.
Qed.

(** C1, as the code behaves: on every board the page can reach that has at
    least one note, a confirmed [clearAll] empties the collection and leaves
    the store holding the record of the empty array, not an absent record. *)
Theorem clearAll_leaves_empty_array_record (st : App) :
  reachable st -> notes st <> [] ->
  notes (step st (ClickClearBoard true)) = [] /\
  localStorage (step st (ClickClearBoard true)) = Some (JSON_stringify []) /\
  localStorage (step st (ClickClearBoard true)) <> None.
Proof.
  intros Hreach Hnotes.
  destruct (reachable_tutorial_inv st Hreach) as [Hnil | Htut]; [contradiction|].
  destruct (clearAll_store st Htut) as [Hn Hs].
  split; [exact Hn|]. split; [exact Hs|]. rewrite Hs. discriminate.
Qed.

Lemma reachable_board_a : reachable board_a.
Proof. exact (reachable_step _ _ (reachable_mount None)). Qed.

(** On the board with the one note "a": the record after a confirmed
    [clearAll] is the one that deleting the note leaves. *)
Lemma clearAll_leaves_empty_array_record_witness :
  localStorage (step board_a (ClickClearBoard true)) = Some (Json (JArray [])) /\
  localStorage (step board_a (ClickDelete "a")) = Some (Json (JArray [])).
Proof.
  split; [|reflexivity].
  apply (clearAll_leaves_empty_array_record board_a reachable_board_a).
  simpl. discriminate.
Defined.

(** * Further properties of the component *)

(** ** The store follows the collection *)

Lemma fold_keeps_notes q : forall st,
  existsb sets_notes q = false -> notes (fold_left apply_update q st) = notes st.
Proof.
  induction q as [|u q IH]; intros st Hq; [reflexivity|].
  simpl in Hq. apply orb_false_elim in Hq. destruct Hq as [Hu Hq].
  simpl. rewrite (IH _ Hq). destruct u; try discriminate Hu; reflexivity.
Qed.

Lemma fold_keeps_store q : forall st,
  existsb removes_item q = false ->
  localStorage (fold_left apply_update q st) = localStorage st.
Proof.
  induction q as [|u q IH]; intros st Hq; [reflexivity|].
  simpl in Hq. apply orb_false_elim in Hq. destruct Hq as [Hu Hq].
  simpl. rewrite (IH _ Hq). destruct u; try discriminate Hu; reflexivity.
Qed.

(** A queue that either sets the notes, so that the save effect runs, or
    leaves the stored record alone keeps the store in step. *)
Lemma dispatch_store_inv st q :
  store_inv st ->
  existsb sets_notes q = true \/ existsb removes_item q = false ->
  store_inv (dispatch st q).
Proof.
  intros Hinv Hq. unfold dispatch.
  destruct (existsb sets_notes q
            || negb (Bool.eqb (showTutorial st) (showTutorial (fold_left apply_update q st))))
    eqn:Hrun.
  - unfold store_inv, save_effect.
    destruct ((0 <? Z.of_nat (List.length (notes (fold_left apply_update q st))))
              || negb (showTutorial (fold_left apply_update q st))) eqn:Hguard.
    + intros _. reflexivity.
    + intros Htut. apply orb_false_elim in Hguard. destruct Hguard as [_ Hguard].
      rewrite Htut in Hguard. discriminate Hguard.
  - apply orb_false_elim in Hrun. destruct Hrun as [Hset Htut].
    destruct Hq as [Hq|Hq]; [congruence|].
    apply negb_false_iff, Bool.eqb_prop in Htut.
    unfold store_inv. rewrite (fold_keeps_notes q st Hset), (fold_keeps_store q st Hq), <- Htut.
    exact Hinv.
Qed.

Lemma handlers_queue st ev :
  existsb sets_notes (handlers st ev) = true \/ existsb removes_item (handlers st ev) = false.
Proof.
  destruct ev; cbn [handlers].
  - left. reflexivity.
  - destruct confirmed; [left | right]; reflexivity.
  - unfold bringToFront.
    destruct (match find_note _ _ with Some _ => _ | None => _ end); [right | left]; reflexivity.
  - unfold handleDragStart, bringToFront.
    destruct (find_note (notes st) id) as [note|];
      [destruct (Note.zIndex note =? maxZIndex st); [right | left] | left]; reflexivity.
  - left. reflexivity.
  - left. reflexivity.
  - left. reflexivity.
  - destruct (DragState.isDragging (dragState st)); [|right; reflexivity].
    unfold handleMouseMove. destruct (_ || _); [right | left]; reflexivity.
  - destruct (DragState.isDragging (dragState st)) eqn:Hd; [|right; reflexivity].
    unfold handleMouseUp. rewrite Hd. right. reflexivity.
  - right. reflexivity.
Qed.

Lemma store_inv_mount stored : store_inv (mount stored).
Proof.
  unfold mount. apply dispatch_store_inv.
  - intros Htut. discriminate Htut.
  - unfold load_effect. cbn [localStorage initial].
    destruct stored as [saved|]; [|right; reflexivity].
    destruct (truthy saved); [|right; reflexivity].
    destruct (JSON_parse saved) as [parsed|]; [|right; reflexivity].
    destruct (Array_isArray parsed) as [arr|]; [left | right]; reflexivity.
Qed.

Lemma reachable_store_inv st : reachable st -> store_inv st.
Proof.
  induction 1 as [stored | st ev _ IH].
  - apply store_inv_mount.
  - apply dispatch_store_inv; [exact IH | apply handlers_queue].
Qed.

(** X1: on every board the page can reach that has a note, or whose tutorial
    was dismissed, the store holds [JSON.stringify] of the collection exactly
    as it is now: no change of the notes goes unsaved. *)
Theorem store_follows_notes (st : App) :
  reachable st ->
  notes st <> [] \/ showTutorial st = false ->
  localStorage st = Some (JSON_stringify (notes st)).
Proof.
  intros Hreach Hst. apply (reachable_store_inv st Hreach).
  destruct Hst as [Hnotes|Htut]; [|exact Htut].
  destruct (reachable_tutorial_inv st Hreach) as [Hnil|Htut]; [contradiction | exact Htut].
Qed.

Lemma reachable_dragged_ab :
  reachable (run board_ab [PressHandle (MouseEvent 10 10) "b"; WindowMove (MouseEvent 30 5);
                           ChangeText "a" "milk"; WindowUp]).
Proof.
  exact (reachable_step _ _ (reachable_step _ _ (reachable_step _ _
           (reachable_step _ _ reachable_board_ab)))).
Qed.

Lemma store_follows_notes_witness :
  localStorage (run board_ab [PressHandle (MouseEvent 10 10) "b"; WindowMove (MouseEvent 30 5);
                              ChangeText "a" "milk"; WindowUp])
  = Some (JSON_stringify
            (notes (run board_ab [PressHandle (MouseEvent 10 10) "b";
                                  WindowMove (MouseEvent 30 5);
                                  ChangeText "a" "milk"; WindowUp]))).
Proof.
  apply (store_follows_notes _ reachable_dragged_ab).
  left. simpl. discriminate.
Defined.

(** ** Mounting *)

(** X2: mounting never changes what the store holds: whatever was stored
    (nothing, text that does not parse, a value that is no array, an array of
    notes) is still stored after the load and save effects of the mount, so
    the empty initial state is never written over existing data. *)
Theorem mount_keeps_store (stored : option item) :
  localStorage (mount stored) = stored.
Proof.
  unfold mount, load_effect. cbn [localStorage initial].
  destruct stored as [saved|]; [|reflexivity].
  destruct (truthy saved); [|reflexivity].
  destruct saved as [text|v]; [reflexivity|].
  cbn [JSON_parse]. destruct v as [ | | | | | arr]; try reflexivity.
  cbn [Array_isArray]. destruct arr as [|n arr]; reflexivity.
Qed.

Lemma reduce_maxZ_tight (l : list Note.t) : forall acc,
  fold_left (fun max note => Z.max max (zIndex_or_1 note)) l acc = acc \/
  fold_left (fun max note => Z.max max (zIndex_or_1 note)) l acc = 1 \/
  exists n, In n l /\
            Note.zIndex n = fold_left (fun max note => Z.max max (zIndex_or_1 note)) l acc.
Proof.
  induction l as [|n l IH]; intros acc; simpl; [left; reflexivity|].
  destruct (IH (Z.max acc (zIndex_or_1 n))) as [H | [H | (m & Hm & H)]].
  - rewrite H. destruct (Z.max_spec acc (zIndex_or_1 n)) as [[_ E]|[_ E]]; rewrite E.
    + unfold zIndex_or_1. destruct (Z.eqb_spec (Note.zIndex n) 0).
      * right. left. reflexivity.
      * right. right. exists n. split; [left; reflexivity | reflexivity].
    + left. reflexivity.
  - right. left. exact H.
  - right. right. exists m. split; [right; exact Hm | exact H].
Qed.

Lemma mount_array arr :
  notes (mount (Some (Json (JArray arr)))) = arr /\
  maxZIndex (mount (Some (Json (JArray arr)))) = reduce_maxZ arr + 1 /\
  dragState (mount (Some (Json (JArray arr)))) = initial_dragState /\
  showTutorial (mount (Some (Json (JArray arr))))
  = negb (0 <? Z.of_nat (List.length arr)).
Proof.
  unfold mount, load_effect.
  cbn [localStorage initial truthy JSON_parse Array_isArray].
  destruct (0 <? Z.of_nat (List.length arr)); ui; repeat split; reflexivity.
Qed.

(** X3: mounting over a stored array of notes takes the array as the
    collection, starts with no drag session, shows the tutorial exactly when
    the array is empty, and sets [maxZIndex] to at least 2 and to at least
    every loaded [zIndex].  When every loaded [zIndex] is below 2^53, where
    the sum [maxZ + 1] is exact, [maxZIndex] is strictly above every loaded
    [zIndex], and the bound is tight: [maxZIndex - 1] is 1 or the [zIndex] of
    a loaded note. *)
Theorem mount_loads_array (arr : list Note.t) :
  notes (mount (Some (Json (JArray arr)))) = arr /\
  dragState (mount (Some (Json (JArray arr)))) = initial_dragState /\
  (showTutorial (mount (Some (Json (JArray arr)))) = true <-> arr = []) /\
  Forall (fun n => Note.zIndex n <= maxZIndex (mount (Some (Json (JArray arr))))) arr /\
  2 <= maxZIndex (mount (Some (Json (JArray arr)))) /\
  (Forall (fun n => Note.zIndex n < 2 ^ 53) arr ->
   Forall (fun n => Note.zIndex n < maxZIndex (mount (Some (Json (JArray arr))))) arr /\
   maxZIndex (mount (Some (Json (JArray arr)))) <= 2 ^ 53 /\
   (maxZIndex (mount (Some (Json (JArray arr)))) - 1 = 1 \/
    exists n, In n arr /\
              Note.zIndex n = maxZIndex (mount (Some (Json (JArray arr)))) - 1)).
Proof.
  destruct (mount_array arr) as (Hn & Hm & Hd & Ht).
  rewrite Hm. split; [exact Hn|]. split; [exact Hd|].
  assert (Hall : Forall (fun n => Note.zIndex n <= reduce_maxZ arr) arr).
  { apply (reduce_maxZ_from arr 1). }
  assert (Htight : reduce_maxZ arr = 1 \/
                   exists n, In n arr /\ Note.zIndex n = reduce_maxZ arr).
  { unfold reduce_maxZ.
    destruct (reduce_maxZ_tight arr 1) as [H | [H | (n & Hin & H)]];
      [left; exact H | left; exact H | right; exists n; split; assumption]. }
  split; [|split; [|split; [|intros Hexact; split; [|split]]]].
  - rewrite Ht. destruct arr as [|n arr]; simpl; split; intros H; try reflexivity;
      discriminate H.
  - eapply Forall_impl; [|exact Hall]. intros n Hle. cbv beta in Hle. lia.
  - assert (H := proj1 (reduce_maxZ_from arr 1)). unfold reduce_maxZ. lia.
  - eapply Forall_impl; [|exact Hall]. intros n Hle. cbv beta in Hle. lia.
  - destruct Htight as [H | (n & Hin & H)]; [lia|].
    rewrite Forall_forall in Hexact. specialize (Hexact n Hin). lia.
  - destruct Htight as [H | (n & Hin & H)]; [left; lia|].
    right. exists n. split; [exact Hin | lia].
Qed.

Lemma mount_loads_array_witness :
  maxZIndex (mount (Some (Json (JArray [Note.mk "p" 1 2 "" pink 7 220 220;
                                        Note.mk "q" 3 4 "" blue 0 220 220])))) = 8 /\
  Forall (fun n => Note.zIndex n
                   < maxZIndex (mount (Some (Json (JArray
                        [Note.mk "p" 1 2 "" pink 7 220 220;
                         Note.mk "q" 3 4 "" blue 0 220 220])))))
         [Note.mk "p" 1 2 "" pink 7 220 220; Note.mk "q" 3 4 "" blue 0 220 220].
Proof.
  split; [reflexivity|].
  apply (mount_loads_array [Note.mk "p" 1 2 "" pink 7 220 220;
                            Note.mk "q" 3 4 "" blue 0 220 220]).
  repeat constructor.
Defined.

(** ** Identifiers stay distinct *)

Lemma map_id_kept (p : Note.t -> bool) (f : Note.t -> Note.t) l :
  (forall n, Note.id (f n) = Note.id n) ->
  map Note.id (map (fun n => if p n then f n else n) l) = map Note.id l.
Proof.
  intros Hf. rewrite map_map. apply map_ext. intros n.
  destruct (p n); [apply Hf | reflexivity].
Qed.

Lemma map_id_filter id l :
  map Note.id (filter (fun n => negb (String.eqb (Note.id n) id)) l)
  = filter (fun k => negb (String.eqb k id)) (map Note.id l).
Proof.
  induction l as [|n l IH]; simpl; [reflexivity|].
  destruct (String.eqb (Note.id n) id); simpl; rewrite IH; reflexivity.
Qed.

(** The identifiers of the collection after an event, in order. *)
Lemma step_ids st ev :
  map Note.id (notes (step st ev)) =
  match ev with
  | ClickNewNote d => map Note.id (notes st) ++ [randomUUID d]
  | ClickDelete id => filter (fun k => negb (String.eqb k id)) (map Note.id (notes st))
  | ClickClearBoard true => []
  | _ => map Note.id (notes st)
  end.
Proof.
  unfold step. destruct ev; cbn [handlers].
  - unfold addNote. ui. rewrite map_app. reflexivity.
  - unfold clearAll. destruct confirmed; ui; reflexivity.
  - unfold bringToFront.
    destruct (match find_note _ _ with Some _ => _ | None => _ end); ui; [reflexivity|].
    apply map_id_kept. reflexivity.
  - unfold handleDragStart, bringToFront.
    destruct (find_note (notes st) id) as [note|];
      [destruct (Note.zIndex note =? maxZIndex st)|]; ui;
      rewrite ?map_id_kept; reflexivity.
  - unfold updateNoteColor. ui. apply map_id_kept. reflexivity.
  - unfold deleteNote. ui. apply map_id_filter.
  - unfold updateNoteContent. ui. apply map_id_kept. reflexivity.
  - destruct (DragState.isDragging (dragState st)); [|ui; reflexivity].
    unfold handleMouseMove. destruct (_ || _); ui; [reflexivity|].
    apply map_id_kept. reflexivity.
  - destruct (DragState.isDragging (dragState st)) eqn:Hd; [|ui; reflexivity].
    unfold handleMouseUp. rewrite Hd. ui. reflexivity.
  - ui. reflexivity.
Qed.

(** X5: distinct identifiers stay distinct.  When no two notes share an
    identifier, they still do not after any event, provided the UUID drawn for
    a new note is not already on the board. *)
Theorem ids_stay_distinct (st : App) (ev : event) :
  NoDup (map Note.id (notes st)) ->
  (forall d, ev = ClickNewNote d -> ~ In (randomUUID d) (map Note.id (notes st))) ->
  NoDup (map Note.id (notes (step st ev))).
Proof.
  intros Hnd Hfresh. rewrite step_ids. destruct ev; try exact Hnd.
  - apply NoDup_app; [exact Hnd | constructor; [intros [] | constructor] |].
    intros a Ha [<- | []]. exact (Hfresh d eq_refl Ha).
  - destruct confirmed; [constructor | exact Hnd].
  - apply NoDup_filter. exact Hnd.
Qed.

Lemma ids_stay_distinct_witness :
  NoDup (map Note.id (notes (step board_a (ClickNewNote draws_b)))) /\
  NoDup (map Note.id (notes (step board_ab (ClickDelete "a")))).
Proof.
  assert (Ha : NoDup (map Note.id (notes board_a))).
  { simpl. constructor; [intros [] | constructor]. }
  assert (Hab : NoDup (map Note.id (notes board_ab))).
  { simpl. constructor; [intros [H|[]]; discriminate H|].
    constructor; [intros [] | constructor]. }
  split.
  - apply (ids_stay_distinct board_a (ClickNewNote draws_b) Ha).
    intros d Hd. injection Hd as <-. simpl. intros [H|[]]. discriminate H.
  - apply (ids_stay_distinct board_ab (ClickDelete "a") Hab).
    intros d Hd. discriminate Hd.
Defined.

(** ** Edits compose *)

(** A queue that maps the notes: the collection is mapped, and the save
    effect, which runs, writes it when its guard holds. *)
Lemma dispatch_map st (g : Note.t -> Note.t) :
  dispatch st [setNotes (fun prev => map g prev)]
  = mkApp (map g (notes st)) (maxZIndex st) (dragState st) (showTutorial st)
          (if (0 <? Z.of_nat (List.length (notes st))) || negb (showTutorial st)
           then Some (JSON_stringify (map g (notes st)))
           else localStorage st).
Proof.
  unfold dispatch. cbn [fold_left apply_update existsb sets_notes orb].
  unfold save_effect. cbn [notes showTutorial maxZIndex dragState localStorage].
  rewrite length_map. destruct (_ || _); reflexivity.
Qed.

Lemma dispatch_map_twice st (g h k : Note.t -> Note.t) :
  (forall n, h (g n) = k n) ->
  dispatch (dispatch st [setNotes (fun prev => map g prev)])
           [setNotes (fun prev => map h prev)]
  = dispatch st [setNotes (fun prev => map k prev)].
Proof.
  intros Hk. rewrite !dispatch_map.
  cbn [notes showTutorial maxZIndex dragState localStorage].
  rewrite length_map, map_map, (map_ext _ _ Hk).
  destruct (_ || _); reflexivity.
Qed.

(** X6: edits compose field by field.  Of two edits of the text of one note
    the later one wins, likewise for its colour; and an edit of a text and a
    change of a colour, on the same note or on two notes, give the same
    state (collection, counter, session and stored record) in either
    order. *)
Theorem edits_compose (st : App) (i j : string) (c1 c2 : string) (k1 k2 : NoteColor) :
  step (step st (ChangeText i c1)) (ChangeText i c2) = step st (ChangeText i c2) /\
  step (step st (ClickSwatch i k1)) (ClickSwatch i k2) = step st (ClickSwatch i k2) /\
  step (step st (ChangeText i c1)) (ClickSwatch j k1)
  = step (step st (ClickSwatch j k1)) (ChangeText i c1).
Proof.
  unfold step. cbn [handlers]. unfold updateNoteContent, updateNoteColor.
  split; [|split].
  - apply dispatch_map_twice. intros n.
    destruct (String.eqb (Note.id n) i) eqn:E; cbn [Note.with_content Note.id]; rewrite E;
      reflexivity.
  - apply dispatch_map_twice. intros n.
    destruct (String.eqb (Note.id n) i) eqn:E; cbn [Note.with_color Note.id]; rewrite E;
      reflexivity.
  - rewrite (dispatch_map_twice st _ _
               (fun n => if String.eqb (Note.id n) i
                         then (if String.eqb (Note.id n) j
                               then Note.with_color (Note.with_content n c1) k1
                               else Note.with_content n c1)
                         else (if String.eqb (Note.id n) j
                               then Note.with_color n k1 else n))).
    + symmetry. apply dispatch_map_twice. intros n.
      destruct (String.eqb (Note.id n) i) eqn:Ei, (String.eqb (Note.id n) j) eqn:Ej;
        cbn [Note.with_color Note.with_content Note.id]; rewrite ?Ei, ?Ej; reflexivity.
    + intros n.
      destruct (String.eqb (Note.id n) i) eqn:Ei, (String.eqb (Note.id n) j) eqn:Ej;
        cbn [Note.with_color Note.with_content Note.id]; rewrite ?Ei, ?Ej; reflexivity.
Qed.

(** ** Deleting *)

(** X7: [deleteNote(id)] removes the notes with that identifier and no other
    note (the rest stays, in order); afterwards an edit, a recolouring or a
    second deletion addressed to the same identifier changes nothing of the
    board. *)
Theorem deleteNote_removes (st : App) (id : string) :
  ~ In id (map Note.id (notes (step st (ClickDelete id)))) /\
  (forall n, In n (notes (step st (ClickDelete id))) <-> In n (notes st) /\ Note.id n <> id) /\
  (forall text c,
     same_board (step st (ClickDelete id)) (step (step st (ClickDelete id)) (ChangeText id text)) /\
     same_board (step st (ClickDelete id)) (step (step st (ClickDelete id)) (ClickSwatch id c)) /\
     same_board (step st (ClickDelete id)) (step (step st (ClickDelete id)) (ClickDelete id))).
Proof.
  assert (Habs : ~ In id (map Note.id (notes (step st (ClickDelete id))))).
  { rewrite step_ids. intros Hin. apply filter_In in Hin. destruct Hin as [_ Hin].
    rewrite String.eqb_refl in Hin. discriminate Hin. }
  split; [exact Habs|]. split.
  - intros n. unfold step. cbn [handlers]. unfold deleteNote. ui.
    rewrite filter_In. split; intros [Hin Hid]; (split; [exact Hin|]).
    + intros E. rewrite (proj2 (String.eqb_eq _ _) E) in Hid. discriminate Hid.
    + rewrite (proj2 (String.eqb_neq _ _) Hid). reflexivity.
  - intros text c. set (st1 := step st (ClickDelete id)) in *.
    unfold same_board, step. cbn [handlers].
    unfold updateNoteContent, updateNoteColor, deleteNote. ui.
    rewrite !(map_id_absent id _ (notes st1) Habs).
    rewrite (filter_id_absent id (notes st1) Habs).
    repeat split; reflexivity.
Qed.

(** ** The tutorial *)

Lemma showTutorial_off_step st ev :
  showTutorial st = false -> showTutorial (step st ev) = false.
Proof.
  intros Htut. unfold step. destruct ev; cbn [handlers].
  - unfold addNote. ui. reflexivity.
  - unfold clearAll. destruct confirmed; ui; exact Htut.
  - unfold bringToFront.
    destruct (match find_note _ _ with Some _ => _ | None => _ end); ui; exact Htut.
  - unfold handleDragStart, bringToFront.
    destruct (find_note (notes st) id) as [note|];
      [destruct (Note.zIndex note =? maxZIndex st)|]; ui; exact Htut.
  - unfold updateNoteColor. ui. exact Htut.
  - unfold deleteNote. ui. exact Htut.
  - unfold updateNoteContent. ui. exact Htut.
  - destruct (DragState.isDragging (dragState st)); [|ui; exact Htut].
    unfold handleMouseMove. destruct (_ || _); ui; exact Htut.
  - destruct (DragState.isDragging (dragState st)) eqn:Hd; [|ui; exact Htut].
    unfold handleMouseUp. rewrite Hd. ui. exact Htut.
  - ui. exact Htut.
Qed.

Lemma showTutorial_off_run evs : forall st,
  showTutorial st = false -> showTutorial (run st evs) = false.
Proof.
  induction evs as [|ev evs IH]; intros st Htut; [exact Htut|].
  apply (IH (step st ev)). apply showTutorial_off_step. exact Htut.
Qed.

Lemma mount_tutorial stored :
  showTutorial (mount stored) = true <-> notes (mount stored) = [].
Proof.
  unfold mount, load_effect. cbn [localStorage initial].
  destruct stored as [saved|]; [|ui; split; reflexivity].
  destruct (truthy saved); [|ui; split; reflexivity].
  destruct (JSON_parse saved) as [parsed|]; [|ui; split; reflexivity].
  destruct (Array_isArray parsed) as [[|n arr]|]; ui; cbn [List.length Z.of_nat Z.ltb Z.compare];
    ui; split; intros H; try reflexivity; discriminate H.
Qed.

(** X8: the tutorial does not come back.  After a first note was created the
    empty-board tutorial is never rendered again, whatever events follow, a
    confirmed clearing of the board included; and right after mounting it is
    rendered exactly when no note was loaded. *)
Theorem tutorial_never_returns (st : App) (d : draws) (evs : list event)
    (stored : option item) :
  tutorial_rendered (run (step st (ClickNewNote d)) evs) = false /\
  tutorial_rendered (run (step st (ClickNewNote d)) (evs ++ [ClickClearBoard true])) = false /\
  notes (run (step st (ClickNewNote d)) (evs ++ [ClickClearBoard true])) = [] /\
  (tutorial_rendered (mount stored) = true <-> notes (mount stored) = []).
Proof.
  assert (Hoff : forall evs', showTutorial (run (step st (ClickNewNote d)) evs') = false).
  { intros evs'. apply showTutorial_off_run. unfold step. cbn [handlers]. unfold addNote. ui.
    reflexivity. }
  unfold tutorial_rendered. rewrite !Hoff, !andb_false_r.
  split; [reflexivity|]. split; [reflexivity|]. split.
  - unfold run. rewrite fold_left_app. cbn [fold_left].
    unfold step at 1. cbn [handlers clearAll]. ui. reflexivity.
  - rewrite <- (mount_tutorial stored). split.
    + intros H. apply andb_prop in H. exact (proj2 H).
    + intros H. rewrite H, andb_true_r.
      rewrite (proj1 (mount_tutorial stored) H). reflexivity.
Qed.

(** ** A whole drag gesture *)

Lemma press_handle_state st e id note :
  find_note (notes st) id = Some note ->
  dragState (step st (PressHandle e id)) = session e id note /\
  notes (step st (PressHandle e id))
  = (if Note.zIndex note =? maxZIndex st then notes st
     else raised id (maxZIndex st + 1) (notes st)) /\
  maxZIndex (step st (PressHandle e id))
  = (if Note.zIndex note =? maxZIndex st then maxZIndex st else maxZIndex st + 1).
Proof.
  intros Hfind. unfold step. cbn [handlers]. unfold handleDragStart, bringToFront.
  rewrite Hfind. destruct (Note.zIndex note =? maxZIndex st); ui; unfold raised;
    rewrite ?(map_id_twice id (fun n => Note.with_zIndex n (maxZIndex st + 1)) (notes st)
                (fun _ => eq_refl) (fun _ => eq_refl));
    repeat split; reflexivity.
Qed.

Lemma moves_keep_session es : forall st,
  session_active (dragState st) = true ->
  dragState (run st (map WindowMove es)) = dragState st /\
  map Note.id (notes (run st (map WindowMove es))) = map Note.id (notes st).
Proof.
  induction es as [|e es IH]; intros st Hact; [split; reflexivity|].
  change (run st (map WindowMove (e :: es)))
    with (run (step st (WindowMove e)) (map WindowMove es)).
  destruct (move_step st e Hact) as [_ Hd].
  destruct (IH (step st (WindowMove e))) as [Hd' Hids]; [rewrite Hd; exact Hact|].
  rewrite Hd', Hids, Hd, step_ids. split; reflexivity.
Qed.

(** A move in an active session on a board that has notes is saved. *)
Lemma move_step_store st e :
  session_active (dragState st) = true -> notes st <> [] ->
  localStorage (step st (WindowMove e))
  = Some (JSON_stringify (notes (step st (WindowMove e)))).
Proof.
  unfold session_active. intros Hact Hnotes.
  apply andb_prop in Hact. destruct Hact as [Hd Hid].
  unfold step. cbn [handlers]. rewrite Hd. unfold handleMouseMove. rewrite Hd, Hid.
  cbn [negb orb]. rewrite dispatch_map. cbn [notes localStorage].
  destruct (notes st) as [|n l]; [contradiction|]. reflexivity.
Qed.

Lemma up_step st :
  DragState.isDragging (dragState st) = true ->
  notes (step st WindowUp) = notes st /\
  localStorage (step st WindowUp) = localStorage st /\
  DragState.isDragging (dragState (step st WindowUp)) = false /\
  DragState.noteId (dragState (step st WindowUp)) = None.
Proof.
  intros Hd. unfold step. cbn [handlers]. rewrite Hd. unfold handleMouseUp. rewrite Hd.
  unfold dispatch. cbn [fold_left apply_update existsb sets_notes orb showTutorial].
  rewrite Bool.eqb_reflx. repeat split; reflexivity.
Qed.

Lemma raised_ids id z l : map Note.id (raised id z l) = map Note.id l.
Proof. unfold raised. apply map_id_kept. reflexivity. Qed.

(** X9: a whole drag.  Press the handle of a note of the board (its
    identifier not empty) at [e0], move the pointer any number of times, the
    last time to [e], and release: every note with that identifier ends at
    the found note's position plus [e - e0], every other note is a note of
    the board as it was, the identifiers are the same in the same order, the
    session is over, and the store holds the collection as it ends. *)
Theorem drag_gesture_result (st : App) (e0 : pointer) (id : string) (note : Note.t)
    (earlier : list pointer) (e : pointer) :
  find_note (notes st) id = Some note ->
  id <> EmptyString ->
  (forall n', In n' (notes (run st (drag_gesture e0 id earlier e))) -> Note.id n' = id ->
     Note.x n' = (Note.x note + (clientX e - clientX e0))%Q /\
     Note.y n' = (Note.y note + (clientY e - clientY e0))%Q) /\
  (forall n', In n' (notes (run st (drag_gesture e0 id earlier e))) -> Note.id n' <> id ->
     In n' (notes st)) /\
  map Note.id (notes (run st (drag_gesture e0 id earlier e))) = map Note.id (notes st) /\
  DragState.isDragging (dragState (run st (drag_gesture e0 id earlier e))) = false /\
  DragState.noteId (dragState (run st (drag_gesture e0 id earlier e))) = None /\
  localStorage (run st (drag_gesture e0 id earlier e))
  = Some (JSON_stringify (notes (run st (drag_gesture e0 id earlier e)))).
Proof.
  intros Hfind Hid.
  destruct (press_handle_state st e0 id note Hfind) as (Hds & Hn1 & _).
  set (st1 := step st (PressHandle e0 id)) in *.
  assert (Hact : session_active (dragState st1) = true).
  { rewrite Hds. unfold session_active, session. cbn [DragState.isDragging DragState.noteId
                                                      noteId_truthy andb].
    rewrite (proj2 (String.eqb_neq _ _) Hid). reflexivity. }
  assert (Hids1 : map Note.id (notes st1) = map Note.id (notes st)).
  { rewrite Hn1. destruct (Note.zIndex note =? maxZIndex st); [reflexivity | apply raised_ids]. }
  (* the state before the last move *)
  set (st2 := run st1 (map WindowMove earlier)).
  destruct (moves_keep_session earlier st1 Hact) as [Hds2 Hids2]. fold st2 in Hds2, Hids2.
  assert (Hact2 : session_active (dragState st2) = true) by (rewrite Hds2; exact Hact).
  assert (Hnotes2 : notes st2 <> []).
  { intros Hnil. rewrite Hnil, Hids1 in Hids2.
    destruct (find_note_some id (notes st) note Hfind) as [Hin _].
    destruct (notes st); [contradiction | discriminate Hids2]. }
  destruct (moves_run (dragState st1) e (notes st1) earlier st1 eq_refl Hact
              (fun _ => eq_refl)) as [Hn3 Hds3].
  assert (Hrun : run st (drag_gesture e0 id earlier e)
                 = step (run st1 (map WindowMove (earlier ++ [e]))) WindowUp).
  { unfold drag_gesture, run. cbn [fold_left]. rewrite fold_left_app. reflexivity. }
  assert (Hlast : run st1 (map WindowMove (earlier ++ [e])) = step st2 (WindowMove e)).
  { unfold st2, run. rewrite map_app, fold_left_app. reflexivity. }
  assert (Hd3 : DragState.isDragging (dragState (run st1 (map WindowMove (earlier ++ [e]))))
                = true).
  { rewrite Hds3, Hds. reflexivity. }
  destruct (up_step _ Hd3) as (Hn4 & Hs4 & Hoff & Hnone).
  rewrite Hrun, Hn4, Hs4, Hn3.
  split; [|split; [|split; [|split; [exact Hoff | split; [exact Hnone|]]]]].
  - intros n' Hin Hid'. unfold moved in Hin. apply in_map_iff in Hin.
    destruct Hin as (n & <- & _). rewrite Hds in *.
    cbn [session DragState.noteId DragState.initialNoteX DragState.initialNoteY
         DragState.startX DragState.startY is_noteId] in *.
    destruct (String.eqb_spec (Note.id n) id) as [E|E]; [split; reflexivity | contradiction].
  - intros n' Hin Hid'. unfold moved in Hin. apply in_map_iff in Hin.
    destruct Hin as (n & <- & Hin). rewrite Hds in *.
    cbn [session DragState.noteId is_noteId] in *.
    destruct (String.eqb_spec (Note.id n) id) as [E|E]; [contradiction|].
    rewrite Hn1 in Hin. destruct (Note.zIndex note =? maxZIndex st); [exact Hin|].
    unfold raised in Hin. apply in_map_iff in Hin. destruct Hin as (n0 & Hn0 & Hin0).
    destruct (String.eqb_spec (Note.id n0) id) as [E0|E0]; subst n; [contradiction | exact Hin0].
  - unfold moved. rewrite map_id_kept; [exact Hids1 | reflexivity].
  - rewrite <- Hn3, Hlast. apply move_step_store; assumption.
Qed.

Lemma drag_gesture_result_witness :
  map (fun n => (Note.id n, Note.x n, Note.y n))
      (notes (run board_ab (drag_gesture (MouseEvent 10 10) "b"
                              [MouseEvent 700 700] (TouchEvent (30%Q, 5%Q) []))))
  = [("a"%string, (50 + (1 # 2) * 100)%Q, (80 + (1 # 4) * 100)%Q);
     ("b"%string, (50 + (1 # 10) * 100 + (30 - 10))%Q, (80 + (9 # 10) * 100 + (5 - 10))%Q)] /\
  localStorage (run board_ab (drag_gesture (MouseEvent 10 10) "b"
                                [MouseEvent 700 700] (TouchEvent (30%Q, 5%Q) [])))
  = Some (JSON_stringify
            (notes (run board_ab (drag_gesture (MouseEvent 10 10) "b"
                                    [MouseEvent 700 700] (TouchEvent (30%Q, 5%Q) []))))).
Proof.
  split; [reflexivity|].
  apply (drag_gesture_result board_ab (MouseEvent 10 10) "b"
           (Note.mk "b" (50 + (1 # 10) * 100) (80 + (9 # 10) * 100) "" pink 3 220 220)
           [MouseEvent 700 700] (TouchEvent (30%Q, 5%Q) [])).
  - reflexivity.
  - discriminate.
Defined.

(** ** The counter only grows *)

(** X10: [maxZIndex] never goes down and is never reset, not by deleting
    notes and not by clearing the board: every event leaves it as it is or
    raises it by one, so after any events it is between its old value and its
    old value plus the number of events. *)
Theorem maxZIndex_only_grows (st : App) (evs : list event) :
  maxZIndex st <= maxZIndex (run st evs) <= maxZIndex st + Z.of_nat (List.length evs).
Proof.
  revert st. induction evs as [|ev evs IH]; intros st.
  - simpl. lia.
  - change (run st (ev :: evs)) with (run (step st ev) evs).
    specialize (IH (step st ev)).
    destruct (maxZIndex_step st ev) as [H|H]; rewrite H in IH;
      cbn [List.length]; lia.
Qed.

(** ** The pressed note is on top *)

Lemma front_inv_kept st st' :
  maxZIndex st' = maxZIndex st ->
  (forall n', In n' (notes st') ->
     exists n, In n (notes st) /\ Note.id n' = Note.id n /\ Note.zIndex n' = Note.zIndex n) ->
  front_inv st -> front_inv st'.
Proof.
  intros Hm Hfrom Hinv n' m' Hn' Hm' Hzn Hzm.
  destruct (Hfrom n' Hn') as (n & Hn & -> & En).
  destruct (Hfrom m' Hm') as (m & Hmm & -> & Em).
  apply Hinv; try assumption; congruence.
Qed.

Lemma In_map_kept (p : Note.t -> bool) (f : Note.t -> Note.t) l n' :
  (forall n, Note.id (f n) = Note.id n /\ Note.zIndex (f n) = Note.zIndex n) ->
  In n' (map (fun n => if p n then f n else n) l) ->
  exists n, In n l /\ Note.id n' = Note.id n /\ Note.zIndex n' = Note.zIndex n.
Proof.
  intros Hf Hin. apply in_map_iff in Hin. destruct Hin as (n & <- & Hin).
  exists n. split; [exact Hin|]. destruct (p n); [apply Hf | split; reflexivity].
Qed.

Lemma front_inv_raised st st' id :
  stack_inv st ->
  maxZIndex st' = maxZIndex st + 1 ->
  notes st' = raised id (maxZIndex st + 1) (notes st) ->
  front_inv st'.
Proof.
  intros Hstack Hm Hn n' m' Hn' Hm' Hzn Hzm.
  assert (Hid : forall k, In k (notes st') -> Note.zIndex k = maxZIndex st' -> Note.id k = id).
  { intros k Hk Hz. rewrite Hn in Hk. unfold raised in Hk. apply in_map_iff in Hk.
    destruct Hk as (k0 & <- & Hk0).
    destruct (String.eqb_spec (Note.id k0) id) as [E|E]; [exact E|].
    exfalso. unfold stack_inv in Hstack. rewrite Forall_forall in Hstack.
    specialize (Hstack k0 Hk0). lia. }
  rewrite (Hid n' Hn' Hzn), (Hid m' Hm' Hzm). reflexivity.
Qed.

Lemma front_inv_step st ev : stack_inv st -> front_inv st -> front_inv (step st ev).
Proof.
  intros Hstack Hinv. unfold step. destruct ev; cbn [handlers].
  - (* addNote: the new note alone is at the new maximum *)
    unfold addNote. intros n' m' Hn' Hm' Hzn Hzm. revert Hn' Hm' Hzn Hzm. ui.
    intros Hn' Hm' Hzn Hzm.
    assert (Hnew : forall k, In k (notes st ++ [Note.mk (randomUUID d)
                                 (50 + randomX d * 100)%Q (80 + randomY d * 100)%Q EmptyString
                                 (COLOR_KEYS_at (color_index (randomColorIndex d)))
                                 (maxZIndex st + 1) DEFAULT_WIDTH DEFAULT_HEIGHT]) ->
                             Note.zIndex k = maxZIndex st + 1 -> Note.id k = randomUUID d).
    { intros k Hk Hz. apply in_app_or in Hk. destruct Hk as [Hk | [<- | []]]; [|reflexivity].
      exfalso. unfold stack_inv in Hstack. rewrite Forall_forall in Hstack.
      specialize (Hstack k Hk). lia. }
    rewrite (Hnew n' Hn' Hzn), (Hnew m' Hm' Hzm). reflexivity.
  - unfold clearAll. destruct confirmed.
    + intros n' m' Hn'. revert Hn'. ui. intros [].
    + ui. exact Hinv.
  - unfold bringToFront.
    destruct (match find_note _ _ with Some _ => _ | None => _ end).
    + ui. exact Hinv.
    + apply (front_inv_raised st _ id Hstack); ui; reflexivity.
  - unfold handleDragStart, bringToFront.
    destruct (find_note (notes st) id) as [note|];
      [destruct (Note.zIndex note =? maxZIndex st)|].
    + apply (front_inv_kept st); ui; [reflexivity | | exact Hinv].
      intros n' Hn'. exists n'. repeat split. exact Hn'.
    + apply (front_inv_raised st _ id Hstack); ui; [reflexivity|].
      unfold raised.
      apply (map_id_twice id (fun n => Note.with_zIndex n (maxZIndex st + 1)) (notes st)
               (fun _ => eq_refl) (fun _ => eq_refl)).
    + apply (front_inv_raised st _ id Hstack); ui; reflexivity.
  - unfold updateNoteColor. apply (front_inv_kept st); ui; [reflexivity | | exact Hinv].
    intros n'. apply In_map_kept. intros n. split; reflexivity.
  - unfold deleteNote. apply (front_inv_kept st); ui; [reflexivity | | exact Hinv].
    intros n' Hn'. apply filter_In in Hn'. exists n'. repeat split. exact (proj1 Hn').
  - unfold updateNoteContent. apply (front_inv_kept st); ui; [reflexivity | | exact Hinv].
    intros n'. apply In_map_kept. intros n. split; reflexivity.
  - destruct (DragState.isDragging (dragState st)); [|ui; exact Hinv].
    unfold handleMouseMove. destruct (_ || _); [ui; exact Hinv|].
    apply (front_inv_kept st); ui; [reflexivity | | exact Hinv].
    intros n'. apply In_map_kept. intros n. split; reflexivity.
  - destruct (DragState.isDragging (dragState st)) eqn:Hd; [|ui; exact Hinv].
    unfold handleMouseUp. rewrite Hd.
    apply (front_inv_kept st); ui; [reflexivity | | exact Hinv].
    intros n' Hn'. exists n'. repeat split. exact Hn'.
  - ui. exact Hinv.
Qed.

Lemma reduce_maxZ_above arr :
  Forall (fun n => Note.zIndex n < reduce_maxZ arr + 1) arr.
Proof.
  eapply Forall_impl; [|apply (reduce_maxZ_from arr 1)].
  unfold reduce_maxZ. intros n Hle. cbv beta in Hle. lia.
Qed.

Lemma front_inv_mount stored : front_inv (mount stored).
Proof.
  intros n m Hn _ Hz _. exfalso. revert Hn Hz.
  unfold mount, load_effect. cbn [localStorage initial].
  destruct stored as [saved|]; [|ui; intros []].
  destruct (truthy saved); [|ui; intros []].
  destruct saved as [text|v]; cbn [JSON_parse]; [ui; intros []|].
  destruct v as [ | | | | | arr]; cbn [Array_isArray]; try (ui; intros []).
  pose proof (reduce_maxZ_above arr) as Hall.
  destruct (0 <? Z.of_nat (List.length arr)); ui; intros Hin Hz;
    rewrite Forall_forall in Hall; specialize (Hall n Hin); lia.
Qed.

Lemma reachable_front_inv st : reachable st -> front_inv st.
Proof.
  induction 1 as [stored | st ev Hreach IH].
  - apply front_inv_mount.
  - apply front_inv_step; [apply reachable_stack_inv; exact Hreach | exact IH].
Qed.

Lemma NoDup_ids_same (l : list Note.t) : forall n m,
  NoDup (map Note.id l) -> In n l -> In m l -> Note.id n = Note.id m -> n = m.
Proof.
  induction l as [|k l IH]; intros n m Hnd Hn Hm Hid; [contradiction|].
  simpl in Hnd. inversion Hnd as [|? ? Hk Hnd']; subst.
  destruct Hn as [<- | Hn], Hm as [<- | Hm].
  - reflexivity.
  - exfalso. apply Hk. rewrite Hid. apply in_map. exact Hm.
  - exfalso. apply Hk. rewrite <- Hid. apply in_map. exact Hn.
  - apply IH; assumption.
Qed.

Lemma press_note_state st id note :
  find_note (notes st) id = Some note ->
  notes (step st (PressNote id))
  = (if Note.zIndex note =? maxZIndex st then notes st
     else raised id (maxZIndex st + 1) (notes st)).
Proof.
  intros Hfind. unfold step. cbn [handlers]. unfold bringToFront. rewrite Hfind.
  destruct (Note.zIndex note =? maxZIndex st); ui; reflexivity.
Qed.

(** X11: the pressed note is on top.  On a board the page can reach, with
    distinct identifiers and [maxZIndex] below 2^53 (where the sum
    [maxZIndex + 1] is exact), after a press on a note (on its body or on its
    handle) that note's [zIndex] is strictly greater than the [zIndex] of
    every other note, also when the press took [bringToFront]'s fast path. *)
Theorem pressed_note_on_top (st : App) (ev : event) (id : string) :
  reachable st ->
  maxZIndex st < 2 ^ 53 ->
  NoDup (map Note.id (notes st)) ->
  In id (map Note.id (notes st)) ->
  brings_to_front ev id = true ->
  forall n m, In n (notes (step st ev)) -> In m (notes (step st ev)) ->
              Note.id n = id -> Note.id m <> id -> Note.zIndex m < Note.zIndex n.
Proof.
  intros Hreach _ Hnd Hin Hev n m Hn Hm Hidn Hidm.
  destruct (find_note_present id (notes st) Hin) as [note Hfind].
  destruct (find_note_some id (notes st) note Hfind) as [Hnote Hidnote].
  assert (Hstack := reachable_stack_inv st Hreach).
  assert (Hfront := reachable_front_inv st Hreach).
  unfold stack_inv in Hstack. rewrite Forall_forall in Hstack.
  assert (Hnotes : notes (step st ev)
                   = (if Note.zIndex note =? maxZIndex st then notes st
                      else raised id (maxZIndex st + 1) (notes st))).
  { destruct ev; try discriminate Hev; simpl in Hev; apply String.eqb_eq in Hev; subst id0.
    - apply press_note_state. exact Hfind.
    - apply (press_handle_state st e id note Hfind). }
  rewrite Hnotes in Hn, Hm.
  destruct (Z.eqb_spec (Note.zIndex note) (maxZIndex st)) as [E|E].
  - (* already at the front: the board is as it was *)
    assert (n = note) by (apply (NoDup_ids_same (notes st)); congruence).
    subst n. assert (Hle := Hstack m Hm).
    destruct (Z.eq_dec (Note.zIndex m) (maxZIndex st)) as [Em|Em]; [|lia].
    exfalso. apply Hidm. rewrite <- Hidnote. apply Hfront; assumption.
  - (* raised *)
    rewrite (raised_In id _ _ n Hn Hidn).
    unfold raised in Hm. apply in_map_iff in Hm. destruct Hm as (m0 & Hm0 & Hin0).
    destruct (String.eqb_spec (Note.id m0) id) as [E0|E0]; subst m.
    + exfalso. apply Hidm. exact E0.
    + specialize (Hstack m0 Hin0). lia.
Qed.

Lemma pressed_note_on_top_witness :
  Forall (fun n =>
            Forall (fun m => Note.id n = "b"%string -> Note.id m <> "b"%string ->
                             Note.zIndex m < Note.zIndex n)
                   (notes (step board_ab (PressNote "b"))))
         (notes (step board_ab (PressNote "b"))).
Proof.
  apply Forall_forall. intros n Hn. apply Forall_forall. intros m Hm Hidn Hidm.
  apply (pressed_note_on_top board_ab (PressNote "b") "b" reachable_board_ab);
    try assumption.
  - reflexivity.
  - simpl. constructor; [intros [H|[]]; discriminate H|].
    constructor; [intros [] | constructor].
  - simpl. right. left. reflexivity.
  - reflexivity.
Defined.

(** ** The lifted note *)

(** X13: at most one note is drawn as being dragged.  With distinct
    identifiers, two notes of the board for which [isDraggingThis] holds (the
    tilt, the raised shadow, the text area that ignores the pointer) are one
    and the same note; and after a pointer-up or touch-end no note is drawn
    that way. *)
Theorem one_note_lifted (st : App) :
  NoDup (map Note.id (notes st)) ->
  (forall n m, In n (notes st) -> In m (notes st) ->
               isDraggingThis st n = true -> isDraggingThis st m = true -> n = m) /\
  Forall (fun n => isDraggingThis (step st WindowUp) n = false) (notes (step st WindowUp)).
Proof.
  intros Hnd. split.
  - intros n m Hn Hm Hdn Hdm. apply (NoDup_ids_same (notes st)); try assumption.
    unfold isDraggingThis in Hdn, Hdm.
    apply andb_prop in Hdn. apply andb_prop in Hdm.
    destruct Hdn as [_ Hdn], Hdm as [_ Hdm].
    destruct (DragState.noteId (dragState st)) as [s|]; [|discriminate Hdn].
    simpl in Hdn, Hdm. apply String.eqb_eq in Hdn, Hdm. congruence.
  - apply Forall_forall. intros n _. unfold isDraggingThis.
    destruct (DragState.isDragging (dragState st)) eqn:Hd.
    + destruct (up_step st Hd) as (_ & _ & Hoff & _). rewrite Hoff. reflexivity.
    + unfold step. cbn [handlers]. rewrite Hd, dispatch_nil, Hd. reflexivity.
Qed.

Lemma one_note_lifted_witness :
  Forall (fun n => isDraggingThis (step dragging_a WindowUp) n = false)
         (notes (step dragging_a WindowUp)) /\
  map Note.id (filter (isDraggingThis (step board_ab (PressHandle (MouseEvent 1 1) "b")))
                      (notes (step board_ab (PressHandle (MouseEvent 1 1) "b"))))
  = ["b"%string].
Proof.
  split; [|reflexivity].
  apply (one_note_lifted dragging_a).
  simpl. constructor; [intros [] | constructor].
Defined.

(** ** A press without a move *)

Lemma up_keeps_notes st : notes (step st WindowUp) = notes st.
Proof.
  destruct (DragState.isDragging (dragState st)) eqn:Hd.
  - apply (up_step st Hd).
  - unfold step. cbn [handlers]. rewrite Hd, dispatch_nil. reflexivity.
Qed.

(** X14: a press on a handle followed by a release, with no move in between,
    moves nothing: every note keeps its identifier, position, text, colour
    and size (only a [zIndex] may have changed), and no session is left
    active. *)
Theorem press_release_moves_nothing (st : App) (e : pointer) (id : string) :
  map (fun n => (Note.id n, Note.x n, Note.y n, Note.content n, Note.color n,
                 Note.width n, Note.height n))
      (notes (run st [PressHandle e id; WindowUp]))
  = map (fun n => (Note.id n, Note.x n, Note.y n, Note.content n, Note.color n,
                   Note.width n, Note.height n))
        (notes st) /\
  DragState.isDragging (dragState (run st [PressHandle e id; WindowUp])) = false.
Proof.
  change (run st [PressHandle e id; WindowUp]) with (step (step st (PressHandle e id)) WindowUp).
  split.
  - rewrite up_keeps_notes. unfold step. cbn [handlers]. unfold handleDragStart, bringToFront.
    destruct (find_note (notes st) id) as [note|];
      [destruct (Note.zIndex note =? maxZIndex st)|]; ui; rewrite ?map_map;
      try reflexivity; apply map_ext; intros n;
      destruct (String.eqb (Note.id n) id) eqn:E; cbn [Note.with_zIndex Note.id];
      rewrite ?E; reflexivity.
  - destruct (DragState.isDragging (dragState (step st (PressHandle e id)))) eqn:Hd.
    + apply (up_step _ Hd).
    + unfold step at 1. cbn [handlers]. rewrite Hd, dispatch_nil. exact Hd.
Qed.

(** ** A drag start on an identifier that no note has *)

(** X15: [handleDragStart] on an identifier that no note of the collection
    has returns at once: no session starts and nothing of the state or of the
    store changes. *)
Theorem dragStart_absent_id (st : App) (e : pointer) (id : string) :
  ~ In id (map Note.id (notes st)) ->
  dispatch st (handleDragStart st e id) = st.
Proof.
  intros Habs. unfold handleDragStart.
  rewrite (find_note_absent id (notes st) Habs). apply dispatch_nil.
Qed.

Lemma dragStart_absent_id_witness :
  dispatch dragging_a (handleDragStart dragging_a (TouchEvent (7%Q, 7%Q) []) "ghost")
  = dragging_a.
Proof.
  apply (dragStart_absent_id dragging_a (TouchEvent (7%Q, 7%Q) []) "ghost").
  simpl. intros [H|[]]. discriminate H.
Defined.

(** ** The store before the first note *)

(** X16: while the tutorial is still on (no note was loaded or created), the
    page does not write the store: every event other than the creation of a
    note and a confirmed clearing leaves the stored record exactly as it is,
    unreadable text included, and leaves the tutorial on. *)
Theorem store_untouched_before_first_note (st : App) (ev : event) :
  reachable st ->
  showTutorial st = true ->
  (forall d, ev <> ClickNewNote d) ->
  ev <> ClickClearBoard true ->
  localStorage (step st ev) = localStorage st /\ showTutorial (step st ev) = true.
Proof.
  intros Hreach Htut Hadd Hclear.
  destruct (reachable_tutorial_inv st Hreach) as [Hnil|Hoff]; [|congruence].
  clear Hreach. destruct st as [ns mz ds tut store]. cbn [notes showTutorial] in *. subst ns tut.
  unfold step. destruct ev; cbn [handlers notes dragState].
  - exfalso. exact (Hadd d eq_refl).
  - destruct confirmed; [exfalso; exact (Hclear eq_refl) | split; reflexivity].
  - split; reflexivity.
  - split; reflexivity.
  - split; reflexivity.
  - split; reflexivity.
  - split; reflexivity.
  - destruct (DragState.isDragging ds) eqn:Hd; [|split; reflexivity].
    unfold handleMouseMove. cbn [dragState]. rewrite Hd.
    destruct (noteId_truthy (DragState.noteId ds)); split; reflexivity.
  - destruct (DragState.isDragging ds) eqn:Hd; [|split; reflexivity].
    unfold handleMouseUp. cbn [dragState]. rewrite Hd. split; reflexivity.
  - split; reflexivity.
Qed.

Lemma store_untouched_before_first_note_witness :
  localStorage (step (mount (Some (Unparsable "{oops"))) (PressNote "a"))
  = Some (Unparsable "{oops") /\
  localStorage (step (mount (Some (Json (JString "hello")))) (ChangeText "a" "x"))
  = Some (Json (JString "hello")).
Proof.
  split.
  - apply (store_untouched_before_first_note (mount (Some (Unparsable "{oops"))) (PressNote "a")
             (reachable_mount _) eq_refl); discriminate.
  - apply (store_untouched_before_first_note (mount (Some (Json (JString "hello"))))
             (ChangeText "a" "x") (reachable_mount _) eq_refl); discriminate.
Defined.
